(** * Error Analyzer (teach-me): the extension host and the webview script

    A shallow embedding of [src/extension.ts]: the sidebar provider
    [ErrorAnalyzerViewProvider] that turns the error diagnostics of the
    active document into a text block and posts it to its webview, and the
    script of that webview which loads the text-generation model with a
    bounded number of attempts. *)

From Stdlib Require Import String Ascii NArith DecimalN Lia Bool List.
Import ListNotations.

(** ** JavaScript strings and numbers *)

Module JS.

(** A JavaScript string is a sequence of UTF-16 code units. *)
Definition char16 := N.
Definition jsstring := list char16.

(** The code units of an ASCII literal of the source. *)
Fixpoint lit (s : String.string) : jsstring :=
  match s with
  | String.EmptyString => []
  | String.String c s' => N_of_ascii c :: lit s'
  end.
Arguments lit s%_string.

(** The escape [\n] of a string or template literal. *)
Definition LF : jsstring := [10%N].

Definition jsstring_eqb (a b : jsstring) : bool :=
  if list_eq_dec N.eq_dec a b then true else false.

(** [WhiteSpace] and [LineTerminator] of ECMAScript, the code points that
    [String.prototype.trim] strips: TAB, LF, VT, FF, CR, SP, NBSP,
    U+1680, U+2000..U+200A, LS, PS, U+202F, U+205F, U+3000 and U+FEFF. *)
Definition isWhiteSpace (c : char16) : bool :=
  match c with
  | 9 | 10 | 11 | 12 | 13 | 32 | 160 | 5760
  | 8232 | 8233 | 8239 | 8287 | 12288 | 65279 => true
  | _ => (8192 <=? c) && (c <=? 8202)
  end%N.

Fixpoint trimStart (s : jsstring) : jsstring :=
  match s with
  | [] => []
  | c :: s' => if isWhiteSpace c then trimStart s' else s
  end.

Definition trimEnd (s : jsstring) : jsstring := rev (trimStart (rev s)).

(** [String.prototype.trim] *)
Definition trim (s : jsstring) : jsstring := trimEnd (trimStart s).

Fixpoint digits (u : Decimal.uint) : jsstring :=
  (match u with
   | Decimal.Nil => []
   | Decimal.D0 u => 48 :: digits u
   | Decimal.D1 u => 49 :: digits u
   | Decimal.D2 u => 50 :: digits u
   | Decimal.D3 u => 51 :: digits u
   | Decimal.D4 u => 52 :: digits u
   | Decimal.D5 u => 53 :: digits u
   | Decimal.D6 u => 54 :: digits u
   | Decimal.D7 u => 55 :: digits u
   | Decimal.D8 u => 56 :: digits u
   | Decimal.D9 u => 57 :: digits u
   end)%N.

(** [Number::toString] at a non-negative integer, as a template literal
    [${n}] applies it: the decimal digits, no sign, no leading zero.
    (Line numbers and array indices stay far below 2^53, where a JS
    number is an exact integer.) *)
Definition Number_toString (n : N) : jsstring := digits (N.to_uint n).

End JS.

(** ** Node's [path] module *)

Module Path.
Import JS.

(** [path] is platform dependent ([path.posix] or [path.win32]); the
    provider only calls [basename]. *)
Class PathModule := { basename : jsstring -> jsstring }.

Definition isSlash (c : char16) : bool := (c =? 47)%N.

Fixpoint dropSlashes (s : jsstring) : jsstring :=
  match s with
  | [] => []
  | c :: s' => if isSlash c then dropSlashes s' else s
  end.

Fixpoint untilSlash (s : jsstring) : jsstring :=
  match s with
  | [] => []
  | c :: s' => if isSlash c then [] else c :: untilSlash s'
  end.

(** [path.posix.basename(p)]: scanning from the end, trailing slashes are
    skipped and the characters back to the previous slash are kept. *)
Definition posix_basename (p : jsstring) : jsstring :=
  rev (untilSlash (dropSlashes (rev p))).

#[export] Instance posix : PathModule := {| basename := posix_basename |}.

End Path.

(** ** The part of the VS Code API the provider reads *)

Module VSCode.
Import JS.

Inductive DiagnosticSeverity := Error | Warning | Information | Hint.

Definition DiagnosticSeverity_eqb (a b : DiagnosticSeverity) : bool :=
  match a, b with
  | Error, Error | Warning, Warning
  | Information, Information | Hint, Hint => true
  | _, _ => false
  end.

Record Position := { line : N; character : N }.

(** [end] is a keyword of Rocq. *)
Record Range := { start : Position; end_ : Position }.

Record Diagnostic := {
  range : Range;
  message : jsstring;
  severity : DiagnosticSeverity
}.

Definition Uri := jsstring.

(** A document is its identity, its path on disk and its lines (without
    line terminators). *)
Record TextDocument := {
  uri : Uri;
  fileName : jsstring;
  lines : list jsstring
}.

Record TextLine := { lineNumber : N; text : jsstring }.

Definition lineCount (d : TextDocument) : N := N.of_nat (length (lines d)).

(** [TextDocument.lineAt(line)]: the line must be in [[0, lineCount)];
    VS Code throws [Error('Illegal value for `line`')] otherwise
    ([None] here). *)
Definition lineAt (d : TextDocument) (n : N) : option TextLine :=
  match nth_error (lines d) (N.to_nat n) with
  | Some t => Some {| lineNumber := n; text := t |}
  | None => None
  end.

Record TextEditor := { document : TextDocument }.

(** What the host answers when the provider asks:
    [vscode.window.activeTextEditor] and
    [vscode.languages.getDiagnostics(uri)]. *)
Record Env := {
  activeTextEditor : option TextEditor;
  getDiagnostics : Uri -> list Diagnostic
}.

End VSCode.

(** ** The extension host side: [ErrorAnalyzerViewProvider] *)

Module Host.
Import JS Path VSCode.

(** Views and panels are objects owned by VS Code; the provider only holds
    references to them. *)
Definition WebviewView := nat.
Definition WebviewPanel := nat.

(** The objects passed to [webview.postMessage], tagged by [command]. *)
Inductive Message :=
| showResult (text : jsstring)
| analyzeWithAI (errorContext : jsstring).

Definition command (m : Message) : jsstring :=
  match m with
  | showResult _ => lit "showResult"
  | analyzeWithAI _ => lit "analyzeWithAI"
  end.

Definition noActiveFile : jsstring :=
  lit "No active file found. Please open a file first.".

(** The literal ends with U+1F389, a surrogate pair in UTF-16. *)
Definition noErrorsFound : jsstring :=
  lit "No errors found in the current file! " ++ [55356; 57225]%N.

Definition viewType : jsstring := lit "errorAnalyzer.sidebarView".

(** The calls into VS Code that change something outside the provider. *)
Inductive Effect :=
| ConsoleLog (s : jsstring)
| RegisterWebviewViewProvider (viewType : jsstring)
| SetOptions (w : WebviewView) (enableScripts : bool)
             (localResourceRoots : list Uri)
| SetHtml (w : WebviewView)
| OnDidReceiveMessage (w : WebviewView)
| PostMessage (w : WebviewView) (m : Message).

(** The mutable variables of the module: the top-level [panel] and the
    fields of the one provider instance. *)
Record Extension := {
  panel : option WebviewPanel;
  _extensionUri : Uri;
  _view : option WebviewView
}.

Inductive Exn :=
| IllegalValueForLine   (* thrown by [lineAt] *)
| TypeError.            (* a property read on [undefined] *)

(** Host code runs over the extension's variables, emits effects and may
    throw. *)
Definition M (A : Type) : Type :=
  Extension -> Extension * list Effect * (Exn + A).

Definition ret {A} (a : A) : M A := fun s => (s, [], inr a).

Definition bind {A B} (m : M A) (k : A -> M B) : M B :=
  fun s =>
    match m s with
    | (s1, out1, inl e) => (s1, out1, inl e)
    | (s1, out1, inr a) =>
        match k a s1 with
        | (s2, out2, r) => (s2, out1 ++ out2, r)
        end
    end.

Declare Scope host_scope.
Delimit Scope host_scope with host.
Notation "x <- m ;; k" := (bind m (fun x => k))
  (at level 100, m at next level, right associativity) : host_scope.
Notation "m ;; k" := (bind m (fun _ => k))
  (at level 100, right associativity) : host_scope.
Open Scope host_scope.

Definition throw {A} (e : Exn) : M A := fun s => (s, [], inl e).
Definition emit (e : Effect) : M unit := fun s => (s, [e], inr tt).
Definition read_view : M (option WebviewView) :=
  fun s => (s, [], inr (_view s)).
Definition write_view (v : option WebviewView) : M unit :=
  fun s => ({| panel := panel s; _extensionUri := _extensionUri s;
               _view := v |}, [], inr tt).
Definition read_extensionUri : M Uri :=
  fun s => (s, [], inr (_extensionUri s)).
Definition lift {A} (r : Exn + A) : M A := fun s => (s, [], r).

(** [this._view.webview.postMessage(m)]; the returned promise is dropped. *)
Definition postMessage (m : Message) : M unit :=
  v <- read_view ;;
  match v with
  | None => throw TypeError
  | Some w => emit (PostMessage w m)
  end.

Section Provider.
Context {path : PathModule}.

(** The callback of [errors.forEach], on the accumulated
    [errorContext]. *)
Definition appendError (document : TextDocument)
    (errorContext : jsstring) (err : Diagnostic) (idx : N)
  : Exn + jsstring :=
  match lineAt document (line (start (range err))) with
  | None => inl IllegalValueForLine
  | Some ln =>
      let errorContext :=
        errorContext ++ lit "Error " ++ Number_toString (idx + 1)
          ++ lit ": " ++ message err ++ LF in
      let errorContext :=
        errorContext ++ lit "Line "
          ++ Number_toString (line (start (range err)) + 1)
          ++ lit ": " ++ trim (text ln) ++ LF ++ LF in
      inr errorContext
  end.

Fixpoint forEach (document : TextDocument) (errors : list Diagnostic)
    (idx : N) (errorContext : jsstring) : Exn + jsstring :=
  match errors with
  | [] => inr errorContext
  | err :: rest =>
      match appendError document errorContext err idx with
      | inl e => inl e
      | inr errorContext' =>
          forEach document rest (idx + 1) errorContext'
      end
  end.

(** Lines 77-82: the header, then the loop over the errors. *)
Definition buildErrorContext (document : TextDocument)
    (errors : list Diagnostic) : Exn + jsstring :=
  forEach document errors 0
    (lit "File: " ++ basename (fileName document) ++ LF ++ LF).

(** [d => d.severity === vscode.DiagnosticSeverity.Error] *)
Definition isError (d : Diagnostic) : bool :=
  DiagnosticSeverity_eqb (severity d) Error.

Definition _analyzeCurrentFile (env : Env) : M unit :=
  v <- read_view ;;
  match v with
  | None => ret tt
  | Some _ =>
      match activeTextEditor env with
      | None => postMessage (showResult noActiveFile)
      | Some editor =>
          let document := document editor in
          let diagnostics := getDiagnostics env (uri document) in
          let errors := filter isError diagnostics in
          if Nat.eqb (length errors) 0 then
            postMessage (showResult noErrorsFound)
          else
            errorContext <- lift (buildErrorContext document errors) ;;
            postMessage (analyzeWithAI errorContext)
      end
  end.

(** The listener that [resolveWebviewView] installs on the webview. *)
Definition onDidReceiveMessage (env : Env) (command : jsstring)
  : M unit :=
  if jsstring_eqb command (lit "analyzeErrors")
  then _analyzeCurrentFile env
  else ret tt.

Definition resolveWebviewView (webviewView : WebviewView) : M unit :=
  write_view (Some webviewView) ;;
  root <- read_extensionUri ;;
  emit (SetOptions webviewView true [root]) ;;
  emit (SetHtml webviewView) ;;
  emit (OnDidReceiveMessage webviewView).

(** *** Runs of the extension host *)

Record World := { ext : Extension; trace : list Effect }.

Definition exec {A} (m : M A) (W : World) : World * (Exn + A) :=
  match m (ext W) with
  | (s, out, r) => ({| ext := s; trace := trace W ++ out |}, r)
  end.

(** What one call emits, and how it ends. *)
Definition emitted {A} (m : M A) (s : Extension) : list Effect :=
  snd (fst (m s)).
Definition outcome {A} (m : M A) (s : Extension) : Exn + A :=
  snd (m s).
Definition after {A} (m : M A) (s : Extension) : Extension :=
  fst (fst (m s)).

(** [activate]: the provider is built with no view and registered. *)
Definition activate (extensionUri : Uri) : World :=
  {| ext := {| panel := None; _extensionUri := extensionUri;
               _view := None |};
     trace := [ConsoleLog (lit "Error Analyzer extension is now active");
               RegisterWebviewViewProvider viewType] |}.

Definition listening (W : World) (w : WebviewView) : Prop :=
  In (OnDidReceiveMessage w) (trace W).

(** VS Code calls the provider in two ways: it hands over a view to
    resolve, or it delivers a message of a webview on which a listener
    was installed. *)
Inductive Event :=
| Resolve (w : WebviewView)
| Receive (w : WebviewView) (env : Env) (command : jsstring).

Inductive step : World -> Event -> World -> Prop :=
| step_resolve W w :
    step W (Resolve w) (fst (exec (resolveWebviewView w) W))
| step_receive W w env c :
    listening W w ->
    step W (Receive w env c) (fst (exec (onDidReceiveMessage env c) W)).

Inductive reachable : World -> Prop :=
| reach_activate extensionUri : reachable (activate extensionUri)
| reach_step W ev W' : reachable W -> step W ev W' -> reachable W'.

(** One handling of the webview's [analyzeErrors] command. *)
Definition analyze (env : Env) : M unit :=
  onDidReceiveMessage env (lit "analyzeErrors").

End Provider.

(** *** Vocabulary of the statements *)

(** The messages among the effects of a call. *)
Fixpoint posted (out : list Effect) : list Message :=
  match out with
  | [] => []
  | PostMessage _ m :: out' => m :: posted out'
  | _ :: out' => posted out'
  end.

(** The diagnostic starts on a line the document has. *)
Definition startsInDocument (document : TextDocument) (d : Diagnostic)
  : Prop :=
  (line (start (range d)) < lineCount document)%N.

(** What an analysis can see of the editor: whether there is one, the
    name and the lines of its document and the diagnostics of that
    document. *)
Definition observed (env : Env)
  : option (jsstring * list jsstring * list Diagnostic) :=
  match activeTextEditor env with
  | None => None
  | Some editor =>
      Some (fileName (document editor), lines (document editor),
            getDiagnostics env (uri (document editor)))
  end.

(** Every error the analysis would report starts inside the document. *)
Definition errorsInDocument (env : Env) : Prop :=
  match activeTextEditor env with
  | None => True
  | Some editor =>
      Forall (startsInDocument (document editor))
        (filter isError (getDiagnostics env (uri (document editor))))
  end.

(** The text one error adds to the block. *)
Definition blockText (idx : N) (err : Diagnostic) (ln : TextLine)
  : jsstring :=
  lit "Error " ++ Number_toString (idx + 1) ++ lit ": " ++ message err
    ++ LF ++ lit "Line " ++ Number_toString (line (start (range err)) + 1)
    ++ lit ": " ++ trim (text ln) ++ LF ++ LF.




(** The view whose listener was installed last in [out], [v] if none. *)
Fixpoint resolvedIn (out : list Effect) (v : option WebviewView)
  : option WebviewView :=
  match out with
  | [] => v
  | OnDidReceiveMessage w :: out' => resolvedIn out' (Some w)
  | _ :: out' => resolvedIn out' v
  end.

Definition lastResolved (trace : list Effect) : option WebviewView :=
  resolvedIn trace None.

(** Every message of [out] goes to the view resolved last before it, [v]
    being the one resolved before [out]. *)
Fixpoint wellAddressed (out : list Effect) (v : option WebviewView) : Prop :=
  match out with
  | [] => True
  | OnDidReceiveMessage w :: out' => wellAddressed out' (Some w)
  | PostMessage w _ :: out' => v = Some w /\ wellAddressed out' v
  | _ :: out' => wellAddressed out' v
  end.

(** *** Sample inputs *)

Definition mkDiagnostic (startLine endLine : N) (msg : String.string)
    (sev : DiagnosticSeverity) : Diagnostic :=
  {| range := {| start := {| line := startLine; character := 0 |};
                 end_ := {| line := endLine; character := 1 |} |};
     message := lit msg; severity := sev |}.
Arguments mkDiagnostic startLine%_N endLine%_N msg%_string sev.

Definition main_ts : TextDocument :=
  {| uri := lit "file:///work/src/main.ts";
     fileName := lit "/work/src/main.ts";
     lines := [lit "const a = 1;"; lit "   foo(  "; lit "  bar);  "] |}.

Definition main_diagnostics : list Diagnostic :=
  [ mkDiagnostic 0 0 "unused variable" Warning;
    mkDiagnostic 1 2 "Cannot find name 'foo'." Error;
    mkDiagnostic 2 2 "prefer const" Hint;
    mkDiagnostic 2 2 "Expression expected." Error ].

Definition envOf (document : TextDocument) (ds : list Diagnostic) : Env :=
  {| activeTextEditor := Some {| VSCode.document := document |};
     getDiagnostics := fun u =>
       if jsstring_eqb u (uri document) then ds else [] |}.

Definition main_env : Env := envOf main_ts main_diagnostics.

Definition main_errorContext : jsstring :=
  lit "File: main.ts" ++ LF ++ LF
    ++ lit "Error 1: Cannot find name 'foo'." ++ LF
    ++ lit "Line 2: foo(" ++ LF ++ LF
    ++ lit "Error 2: Expression expected." ++ LF
    ++ lit "Line 3: bar);" ++ LF ++ LF.

Definition noEditor_env : Env :=
  {| activeTextEditor := None; getDiagnostics := fun _ => [] |}.

(** Diagnostics published before the document lost its last lines. *)
Definition stale_env : Env :=
  envOf main_ts [mkDiagnostic 7 7 "Unexpected token." Error].

Definition resolved (extensionUri : Uri) (w : WebviewView) : World :=
  fst (exec (resolveWebviewView w) (activate extensionUri)).

(** The same document under another identity, in a host that also holds
    diagnostics of other documents. *)
Definition main_copy : TextDocument :=
  {| uri := lit "untitled:main.ts"; fileName := fileName main_ts;
     lines := lines main_ts |}.

Definition copy_env : Env :=
  {| activeTextEditor := Some {| VSCode.document := main_copy |};
     getDiagnostics := fun u =>
       if jsstring_eqb u (uri main_copy) then main_diagnostics
       else [mkDiagnostic 0 0 "elsewhere" Error] |}.

Definition other_extension : Extension :=
  {| panel := Some 9; _extensionUri := lit "elsewhere";
     _view := Some 4 |}.

(** [main.ts] after reformatting: other indentation, same code. *)
Definition main_reformatted : TextDocument :=
  {| uri := uri main_ts; fileName := fileName main_ts;
     lines := [lit "const a = 1;"; [9; 9]%N ++ lit "foo(";
               lit "bar);" ++ [32; 13]%N] |}.

(** View 4 is resolved and answers one analysis, then view 5 is resolved
    and a message of the older view 4 is handled. *)
Definition resolvedAgain : World :=
  fst (exec (resolveWebviewView 5)
         (fst (exec (analyze main_env) (resolved (lit "ext") 4)))).

Definition answeredAgain : World :=
  fst (exec (analyze noEditor_env) resolvedAgain).

End Host.

(** ** The webview side: the module script of the page *)

Module Webview.
Import JS.

(** Callbacks handed to [setTimeout]. *)
Inductive Task :=
| TInitModel      (* [() => initModel()] *)
| TClearStatus.   (* [() => { statusEl.innerHTML = ''; }] *)

(** The two handlers the button's [onclick] takes. *)
Inductive OnClick :=
| OnAnalyzeErrors   (* [analyzeErrors()] *)
| OnRetry.          (* the handler installed after the last failed attempt *)

(** Calls that leave the page. *)
Inductive Effect :=
| CallPipeline
| ConsoleError (message : jsstring)
| SetTimeout (task : Task) (delay : N)
| PostToHost (command : jsstring)
| CallGenerator (prompt : jsstring).

(** What [pipeline] reports to [progress_callback]; [percent] is
    [Math.round(progress.progress || 0)]. *)
Inductive Progress :=
| Downloading (percent : N)
| Loading
| OtherStatus.

(** Messages of the extension host, by [command]. *)
Inductive HostMessage :=
| ShowResult (text : jsstring)
| AnalyzeWithAI (errorContext : jsstring)
| OtherCommand.

Record Page := {
  isInitialized : bool;
  initAttempts : N;
  generator : option nat;
  status : jsstring;         (* [statusEl.innerHTML] *)
  result : jsstring;         (* [resultEl.textContent] *)
  btnDisabled : bool;        (* [analyzeBtn.disabled] *)
  btnText : jsstring;        (* [analyzeBtn.textContent] *)
  btnOnclick : OnClick;      (* [analyzeBtn.onclick] *)
  timers : list (Task * N);  (* timeouts set and not yet fired *)
  loading : nat;             (* calls of [initModel] waiting for [pipeline] *)
  analyzing : list jsstring; (* [errorContext] of each waiting analysis *)
  log : list Effect
}.

Definition MAX_ATTEMPTS : N := 3.

Definition quote : jsstring := [34%N].
Definition spinner : jsstring :=
  lit "<span class=" ++ quote ++ lit "loading" ++ quote ++ lit "></span>".
Definition cross : jsstring := [10007%N].
Definition check : jsstring := [10003%N].
Definition books : jsstring := [55357; 56538]%N.

Definition set_status (v : jsstring) (p : Page) : Page :=
  {| isInitialized := isInitialized p; initAttempts := initAttempts p;
     generator := generator p; status := v; result := result p;
     btnDisabled := btnDisabled p; btnText := btnText p;
     btnOnclick := btnOnclick p; timers := timers p; loading := loading p;
     analyzing := analyzing p; log := log p |}.
Definition set_result (v : jsstring) (p : Page) : Page :=
  {| isInitialized := isInitialized p; initAttempts := initAttempts p;
     generator := generator p; status := status p; result := v;
     btnDisabled := btnDisabled p; btnText := btnText p;
     btnOnclick := btnOnclick p; timers := timers p; loading := loading p;
     analyzing := analyzing p; log := log p |}.
Definition set_disabled (v : bool) (p : Page) : Page :=
  {| isInitialized := isInitialized p; initAttempts := initAttempts p;
     generator := generator p; status := status p; result := result p;
     btnDisabled := v; btnText := btnText p;
     btnOnclick := btnOnclick p; timers := timers p; loading := loading p;
     analyzing := analyzing p; log := log p |}.
Definition set_textContent (v : jsstring) (p : Page) : Page :=
  {| isInitialized := isInitialized p; initAttempts := initAttempts p;
     generator := generator p; status := status p; result := result p;
     btnDisabled := btnDisabled p; btnText := v;
     btnOnclick := btnOnclick p; timers := timers p; loading := loading p;
     analyzing := analyzing p; log := log p |}.
Definition set_onclick (v : OnClick) (p : Page) : Page :=
  {| isInitialized := isInitialized p; initAttempts := initAttempts p;
     generator := generator p; status := status p; result := result p;
     btnDisabled := btnDisabled p; btnText := btnText p;
     btnOnclick := v; timers := timers p; loading := loading p;
     analyzing := analyzing p; log := log p |}.
Definition set_initAttempts (v : N) (p : Page) : Page :=
  {| isInitialized := isInitialized p; initAttempts := v;
     generator := generator p; status := status p; result := result p;
     btnDisabled := btnDisabled p; btnText := btnText p;
     btnOnclick := btnOnclick p; timers := timers p; loading := loading p;
     analyzing := analyzing p; log := log p |}.
Definition set_initialized (g : nat) (p : Page) : Page :=
  {| isInitialized := true; initAttempts := initAttempts p;
     generator := Some g; status := status p; result := result p;
     btnDisabled := btnDisabled p; btnText := btnText p;
     btnOnclick := btnOnclick p; timers := timers p; loading := loading p;
     analyzing := analyzing p; log := log p |}.
Definition set_timers (v : list (Task * N)) (p : Page) : Page :=
  {| isInitialized := isInitialized p; initAttempts := initAttempts p;
     generator := generator p; status := status p; result := result p;
     btnDisabled := btnDisabled p; btnText := btnText p;
     btnOnclick := btnOnclick p; timers := v; loading := loading p;
     analyzing := analyzing p; log := log p |}.
Definition set_loading (v : nat) (p : Page) : Page :=
  {| isInitialized := isInitialized p; initAttempts := initAttempts p;
     generator := generator p; status := status p; result := result p;
     btnDisabled := btnDisabled p; btnText := btnText p;
     btnOnclick := btnOnclick p; timers := timers p; loading := v;
     analyzing := analyzing p; log := log p |}.
Definition set_analyzing (v : list jsstring) (p : Page) : Page :=
  {| isInitialized := isInitialized p; initAttempts := initAttempts p;
     generator := generator p; status := status p; result := result p;
     btnDisabled := btnDisabled p; btnText := btnText p;
     btnOnclick := btnOnclick p; timers := timers p; loading := loading p;
     analyzing := v; log := log p |}.
Definition effect (e : Effect) (p : Page) : Page :=
  {| isInitialized := isInitialized p; initAttempts := initAttempts p;
     generator := generator p; status := status p; result := result p;
     btnDisabled := btnDisabled p; btnText := btnText p;
     btnOnclick := btnOnclick p; timers := timers p; loading := loading p;
     analyzing := analyzing p; log := log p ++ [e] |}.

Definition setTimeout (t : Task) (delay : N) (p : Page) : Page :=
  effect (SetTimeout t delay) (set_timers (timers p ++ [(t, delay)]) p).

(** The page as the HTML gives it, before the script runs. *)
Definition page0 : Page :=
  {| isInitialized := false; initAttempts := 0; generator := None;
     status := []; result := []; btnDisabled := false;
     btnText := lit "Analyze Errors"; btnOnclick := OnAnalyzeErrors;
     timers := []; loading := 0; analyzing := []; log := [] |}.

(** [initModel] up to its [await]: the call of [pipeline] is left
    pending. *)
Definition initModel (p : Page) : Page :=
  if isInitialized p then p
  else
    let p := set_initAttempts (initAttempts p + 1) p in
    let p := set_status
               (lit "Loading AI model (attempt "
                  ++ Number_toString (initAttempts p) ++ lit "/"
                  ++ Number_toString MAX_ATTEMPTS ++ lit ")..." ++ spinner)
               p in
    let p := set_disabled true p in
    set_loading (S (loading p)) (effect CallPipeline p).

Definition progress_callback (g : Progress) (p : Page) : Page :=
  match g with
  | Downloading percent =>
      set_status (lit "Downloading model: " ++ Number_toString percent
                    ++ lit "%" ++ spinner) p
  | Loading => set_status (lit "Loading model into memory..." ++ spinner) p
  | OtherStatus => p
  end.

(** [initModel] after [pipeline] has fulfilled. *)
Definition initModel_then (g : nat) (p : Page) : Page :=
  let p := set_initialized g p in
  let p := set_status (check ++ lit " Model ready!") p in
  let p := set_disabled false p in
  setTimeout TClearStatus 3000 p.

(** The [catch] block of [initModel]. *)
Definition initModel_catch (message : jsstring) (p : Page) : Page :=
  let p := effect (ConsoleError message) p in
  if (initAttempts p <? MAX_ATTEMPTS)%N then
    let p := set_status
               (cross ++ lit " Error: " ++ message
                  ++ lit "<br>Retrying in 2 seconds...") p in
    setTimeout TInitModel 2000 p
  else
    let p := set_status
               (cross ++ lit " Failed to load model after "
                  ++ Number_toString MAX_ATTEMPTS
                  ++ lit " attempts.<br>Error: " ++ message
                  ++ lit "<br><br>Try refreshing the panel or checking your internet connection.")
               p in
    let p := set_disabled false p in
    let p := set_textContent (lit "Retry Loading Model") p in
    set_onclick OnRetry p.

(** [window.analyzeErrors] *)
Definition analyzeErrors (p : Page) : Page :=
  effect (PostToHost (lit "analyzeErrors")) p.

Definition onclick (p : Page) : Page :=
  match btnOnclick p with
  | OnAnalyzeErrors => analyzeErrors p
  | OnRetry =>
      let p := set_initAttempts 0 p in
      let p := set_textContent (lit "Analyze Errors") p in
      let p := set_onclick OnAnalyzeErrors p in
      initModel p
  end.

Definition indent : jsstring := repeat 32%N 24.

(** The listener of [message] events, up to its [await]. *)
Definition onmessage (m : HostMessage) (p : Page) : Page :=
  match m with
  | ShowResult text => set_result text p
  | AnalyzeWithAI errorContext =>
      if negb (isInitialized p) then
        set_result (lit "Please wait for model to initialize...") p
      else
        let p := set_disabled true p in
        let p := set_status (lit "Analyzing..." ++ spinner) p in
        let p := set_result (lit "Processing...") p in
        let prompt :=
          lit "Fix this programming error:" ++ LF
            ++ indent ++ lit "Error: " ++ errorContext ++ LF
            ++ indent ++ lit "Solution:" in
        set_analyzing (analyzing p ++ [errorContext])
          (effect (CallGenerator prompt) p)
  | OtherCommand => p
  end.

(** The listener after the generator has fulfilled with
    [result[0].generated_text = explanation]. *)
Definition onmessage_then (errorContext explanation : jsstring) (p : Page)
  : Page :=
  let p := set_result
             (books ++ lit " AI Analysis:" ++ LF ++ LF ++ explanation
                ++ LF ++ LF ++ lit "---" ++ LF ++ LF
                ++ lit "Original Errors:" ++ LF ++ errorContext) p in
  let p := set_status [] p in
  set_disabled false p.

Definition onmessage_catch (message : jsstring) (p : Page) : Page :=
  let p := set_result (lit "Error during analysis: " ++ message) p in
  let p := set_status [] p in
  set_disabled false p.

Definition runTask (t : Task) (p : Page) : Page :=
  match t with
  | TInitModel => initModel p
  | TClearStatus => set_status [] p
  end.

Fixpoint remove_nth {A} (n : nat) (l : list A) : list A :=
  match n, l with
  | _, [] => []
  | O, _ :: l' => l'
  | S n', x :: l' => x :: remove_nth n' l'
  end.

(** What the browser's event loop can run next. *)
Inductive Event :=
| PipelineProgress (g : Progress)
| PipelineFulfilled (g : nat)
| PipelineRejected (message : jsstring)
| Timeout (i : nat)                       (* the [i]-th pending timer fires *)
| Click
| Message (m : HostMessage)
| GeneratorFulfilled (i : nat) (explanation : jsstring)
                                  (* of the [i]-th waiting analysis *)
| GeneratorRejected (i : nat) (message : jsstring).

(** One turn of the event loop; [None] when the event cannot occur (no
    pending call or timer, a disabled button). *)
Definition step (p : Page) (ev : Event) : option Page :=
  match ev with
  | PipelineProgress g =>
      match loading p with
      | O => None
      | S _ => Some (progress_callback g p)
      end
  | PipelineFulfilled g =>
      match loading p with
      | O => None
      | S n => Some (initModel_then g (set_loading n p))
      end
  | PipelineRejected message =>
      match loading p with
      | O => None
      | S n => Some (initModel_catch message (set_loading n p))
      end
  | Timeout i =>
      match nth_error (timers p) i with
      | None => None
      | Some (t, _) => Some (runTask t (set_timers (remove_nth i (timers p)) p))
      end
  | Click => if btnDisabled p then None else Some (onclick p)
  | Message m => Some (onmessage m p)
  | GeneratorFulfilled i explanation =>
      match nth_error (analyzing p) i with
      | None => None
      | Some errorContext =>
          Some (onmessage_then errorContext explanation
                  (set_analyzing (remove_nth i (analyzing p)) p))
      end
  | GeneratorRejected i message =>
      match nth_error (analyzing p) i with
      | None => None
      | Some _ =>
          Some (onmessage_catch message
                  (set_analyzing (remove_nth i (analyzing p)) p))
      end
  end.

Fixpoint run (p : Page) (evs : list Event) : option Page :=
  match evs with
  | [] => Some p
  | ev :: evs' =>
      match step p ev with
      | None => None
      | Some p' => run p' evs'
      end
  end.

(** The script calls [initModel()] when it is evaluated. *)
Definition boot : Page := initModel page0.

Inductive reachable : Page -> Prop :=
| reach_boot : reachable boot
| reach_step p ev p' : reachable p -> step p ev = Some p' -> reachable p'.

(** *** Vocabulary of the statements *)

Definition isRetryTimer (t : Task * N) : bool :=
  match fst t with
  | TInitModel => true
  | TClearStatus => false
  end.

(** The pending timeouts that will call [initModel]. *)
Definition retryTimers (p : Page) : list (Task * N) :=
  filter isRetryTimer (timers p).

(** Attempts under way: waiting for [pipeline] or for their timeout. *)
Definition underway (p : Page) : nat :=
  loading p + length (retryTimers p).

Definition isCallPipeline (e : Effect) : bool :=
  match e with
  | CallPipeline => true
  | _ => false
  end.

(** How often [pipeline] has been called so far. *)
Definition pipelineCalls (p : Page) : nat :=
  length (filter isCallPipeline (log p)).

Definition isClick (ev : Event) : bool :=
  match ev with
  | Click => true
  | _ => false
  end.

(** What holds of the page whenever the event loop is idle. *)
Record invariant (p : Page) : Prop := {
  inv_single : underway p <= 1;
  inv_bound : (initAttempts p <= MAX_ATTEMPTS)%N;
  inv_busy :
    underway p = 1 ->
    isInitialized p = false /\ btnDisabled p = true
    /\ btnOnclick p = OnAnalyzeErrors /\ (1 <= initAttempts p)%N;
  inv_timer :
    forall t, In t (retryTimers p) ->
      t = (TInitModel, 2000%N) /\ (initAttempts p < MAX_ATTEMPTS)%N;
  inv_retry :
    btnOnclick p = OnRetry -> isInitialized p = false /\ underway p = 0;
  inv_analyzing : analyzing p <> [] -> isInitialized p = true
}.

Definition noClick (evs : list Event) : Prop :=
  forallb (fun ev => negb (isClick ev)) evs = true.

(** The page after the last attempt has failed: nothing under way, the
    button offers the retry. *)
Record retryOffered (p : Page) : Prop := {
  ro_idle : underway p = 0;
  ro_uninitialized : isInitialized p = false;
  ro_analyzing : analyzing p = [];
  ro_onclick : btnOnclick p = OnRetry;
  ro_text : btnText p = lit "Retry Loading Model";
  ro_enabled : btnDisabled p = false
}.

(** How many clicks there are among the events. *)
Definition clicks (evs : list Event) : nat :=
  length (filter isClick evs).

(** The prompt the listener builds around an [errorContext]. *)
Definition promptFor (errorContext : jsstring) : jsstring :=
  lit "Fix this programming error:" ++ LF
    ++ indent ++ lit "Error: " ++ errorContext ++ LF
    ++ indent ++ lit "Solution:".

(** The calls the page makes: its two timeouts, the one command it sends
    to the host, the generator on a prompt of the listener. *)
Definition expected (e : Effect) : Prop :=
  match e with
  | CallPipeline => True
  | ConsoleError _ => True
  | SetTimeout t delay =>
      (t, delay) = (TInitModel, 2000%N) \/ (t, delay) = (TClearStatus, 3000%N)
  | PostToHost c => c = lit "analyzeErrors"
  | CallGenerator prompt => exists errorContext, prompt = promptFor errorContext
  end.

(** The label the button shows for a handler. *)
Definition labelOf (h : OnClick) : jsstring :=
  match h with
  | OnAnalyzeErrors => lit "Analyze Errors"
  | OnRetry => lit "Retry Loading Model"
  end.

(** What else holds of the page whenever the event loop is idle. *)
Record consistent (p : Page) : Prop := {
  con_label : btnText p = labelOf (btnOnclick p);
  con_offer :
    isInitialized p = false -> underway p = 0 -> btnOnclick p = OnRetry;
  con_enabled : btnOnclick p = OnRetry -> btnDisabled p = false;
  con_generator : isInitialized p = true <-> generator p <> None;
  con_called :
    forall prompt, In (CallGenerator prompt) (log p) ->
      isInitialized p = true;
  con_log : forall e, In e (log p) -> expected e;
  con_timers :
    forall t, In t (timers p) ->
      t = (TInitModel, 2000%N) \/ t = (TClearStatus, 3000%N)
}.

(** *** Sample inputs *)

(** The page once the first load has succeeded. *)
Definition ready : option Page := step boot (PipelineFulfilled 7).

Definition fetchFailed : jsstring := lit "Failed to fetch".

(** Two failed attempts, the third one waiting for [pipeline]. *)
Definition twoFailures : list Event :=
  [PipelineRejected fetchFailed; Timeout 0;
   PipelineRejected fetchFailed; Timeout 0].

End Webview.

(** ** The message channel between the page and the provider *)

Module Channel.
Import JS Path VSCode.

(** [event.data] in the page, for an object the provider posted. *)
Definition toPage (m : Host.Message) : Webview.HostMessage :=
  match m with
  | Host.showResult text => Webview.ShowResult text
  | Host.analyzeWithAI errorContext => Webview.AnalyzeWithAI errorContext
  end.

(** The page handles, in order, the messages among the effects of the
    host. *)
Fixpoint deliver (out : list Host.Effect) (p : Webview.Page)
  : Webview.Page :=
  match out with
  | [] => p
  | Host.PostMessage _ m :: out' =>
      deliver out' (Webview.onmessage (toPage m) p)
  | _ :: out' => deliver out' p
  end.

(** The commands among the calls of the page. *)
Fixpoint commandsOf (es : list Webview.Effect) : list jsstring :=
  match es with
  | [] => []
  | Webview.PostToHost c :: es' => c :: commandsOf es'
  | _ :: es' => commandsOf es'
  end.

Section RoundTrip.
Context {path : PathModule}.

(** The provider's listener handles the commands in order, and the page
    handles what each handling posts. *)
Fixpoint answer (env : Env) (s : Host.Extension) (cs : list jsstring)
    (p : Webview.Page) : Webview.Page :=
  match cs with
  | [] => p
  | c :: cs' =>
      answer env (Host.after (Host.onDidReceiveMessage env c) s) cs'
        (deliver (Host.emitted (Host.onDidReceiveMessage env c) s) p)
  end.

(** A click on the button of the page shown in the stored view, with
    nothing else happening until the page has handled the provider's
    answer. *)
Definition clickRoundTrip (env : Env) (s : Host.Extension)
    (p : Webview.Page) : option Webview.Page :=
  match Webview.step p Webview.Click with
  | None => None
  | Some p1 =>
      Some (answer env s
              (commandsOf
                 (skipn (length (Webview.log p)) (Webview.log p1)))
              p1)
  end.

End RoundTrip.

End Channel.

(** * Properties *)

Import JS Path VSCode.

(** ** Strings *)

Lemma trimStart_split (s : jsstring) :
  exists l, s = l ++ trimStart s /\ forallb isWhiteSpace l = true.
Proof.
  induction s as [|c s IH]; simpl.
  - exists []. split; reflexivity.
  - destruct (isWhiteSpace c) eqn:Hc.
    + destruct IH as [l [Hs Hl]]. exists (c :: l). simpl.
      rewrite Hc, Hl. split; [f_equal; exact Hs | reflexivity].
    + exists []. split; reflexivity.
Qed.

Lemma trimStart_head (s : jsstring) c t :
  trimStart s = c :: t -> isWhiteSpace c = false.
Proof.
  induction s as [|a s IH]; simpl; [discriminate|].
  destruct (isWhiteSpace a) eqn:Ha; [exact IH|].
  intros H. injection H as -> _. exact Ha.
Qed.

Lemma forallb_rev {A} (f : A -> bool) (l : list A) :
  forallb f l = true -> forallb f (rev l) = true.
Proof.
  rewrite !forallb_forall. intros H x Hx. apply H, in_rev, Hx.
Qed.




Lemma digits_inj (u v : Decimal.uint) : digits u = digits v -> u = v.
Proof.
  revert v. induction u; destruct v; simpl; intros H;
    try discriminate; try reflexivity;
    injection H as H; f_equal; auto.
Qed.

(** Different numbers are written differently. *)
Lemma Number_toString_inj (m n : N) :
  Number_toString m = Number_toString n -> m = n.
Proof.
  unfold Number_toString. intros H. apply digits_inj in H.
  apply DecimalN.Unsigned.to_uint_inj, H.
Qed.

Example Number_toString_120 : Number_toString 120 = lit "120".
Proof. reflexivity. Qed.

Example trim_sample :
  trim ([9; 32] ++ lit "foo( bar" ++ [32; 160; 13])%N = lit "foo( bar".
Proof. reflexivity. Qed.

Example posix_basename_sample :
  posix_basename (lit "/work/src/main.ts") = lit "main.ts"
  /\ posix_basename (lit "/work/src/") = lit "src"
  /\ posix_basename (lit "main.ts") = lit "main.ts"
  /\ posix_basename (lit "/") = [].
Proof. repeat split. Qed.

(** ** The text block *)

Lemma lineAt_Some (document : TextDocument) (n : N) :
  Host.startsInDocument document (Build_Diagnostic
     (Build_Range (Build_Position n 0) (Build_Position n 0)) [] Error)
  <-> exists ln, lineAt document n = Some ln.
Proof.
  unfold Host.startsInDocument, lineAt, lineCount. simpl.
  destruct (nth_error (lines document) (N.to_nat n)) eqn:E.
  - split; [eauto|]. intros _.
    assert (N.to_nat n < length (lines document))%nat
      by (apply nth_error_Some; congruence). lia.
  - split; [|intros [ln H]; discriminate].
    apply nth_error_None in E. lia.
Qed.

Lemma lineAt_inside (document : TextDocument) (d : Diagnostic) :
  Host.startsInDocument document d
  <-> exists ln, lineAt document (line (start (range d))) = Some ln.
Proof. rewrite <- lineAt_Some. unfold Host.startsInDocument. simpl. tauto. Qed.

Lemma lineAt_text (document : TextDocument) (n : N) ln :
  lineAt document n = Some ln ->
  nth_error (lines document) (N.to_nat n) = Some (text ln).
Proof.
  unfold lineAt. destruct (nth_error _ _); [|discriminate].
  intros H. injection H as <-. reflexivity.
Qed.

Section Block.
Context {path : PathModule}.

Lemma appendError_inr document acc err idx ctx :
  Host.appendError document acc err idx = inr ctx <->
  exists ln, lineAt document (line (start (range err))) = Some ln
    /\ ctx = acc ++ Host.blockText idx err ln.
Proof.
  unfold Host.appendError, Host.blockText.
  destruct (lineAt document _) as [ln|].
  - repeat rewrite <- app_assoc. split.
    + intros H. injection H as <-. eauto.
    + intros [ln' [H ->]]. injection H as <-. reflexivity.
  - split; [discriminate|]. intros [ln [H _]]. discriminate.
Qed.

Lemma appendError_inl document acc err idx e :
  Host.appendError document acc err idx = inl e ->
  e = Host.IllegalValueForLine /\ ~ Host.startsInDocument document err.
Proof.
  unfold Host.appendError. rewrite lineAt_inside.
  destruct (lineAt document _) as [ln|]; [discriminate|].
  intros H. injection H as <-. split; [reflexivity|].
  intros [ln H]. discriminate.
Qed.

(** The loop appends one block per error, in order, numbered from
    [idx + 1]. *)
Lemma forEach_inr document errors : forall idx acc ctx,
  Host.forEach document errors idx acc = inr ctx ->
  exists blocks,
    ctx = acc ++ concat blocks
    /\ length blocks = length errors
    /\ forall i err, nth_error errors i = Some err ->
         exists ln, lineAt document (line (start (range err))) = Some ln
           /\ nth_error blocks i
               = Some (Host.blockText (idx + N.of_nat i) err ln).
Proof.
  induction errors as [|err rest IH]; simpl; intros idx acc ctx H.
  - injection H as <-. exists []. simpl. rewrite app_nil_r.
    repeat split. intros [|i] d Hd; discriminate.
  - destruct (Host.appendError document acc err idx) as [e|acc'] eqn:E;
      [discriminate|].
    apply appendError_inr in E. destruct E as [ln [Hln ->]].
    destruct (IH _ _ _ H) as [blocks [-> [Hlen Hnth]]].
    exists (Host.blockText idx err ln :: blocks). simpl.
    rewrite <- app_assoc. repeat split; [congruence|].
    intros [|i] d Hd; simpl in *.
    + injection Hd as <-. exists ln. rewrite N.add_0_r. auto.
    + destruct (Hnth i d Hd) as [ln' [H1 H2]]. exists ln'.
      split; [exact H1|]. rewrite H2. do 2 f_equal. lia.
Qed.

Lemma forEach_total document errors : forall idx acc,
  Forall (Host.startsInDocument document) errors ->
  exists ctx, Host.forEach document errors idx acc = inr ctx.
Proof.
  induction errors as [|err rest IH]; simpl; intros idx acc H.
  - eauto.
  - inversion H as [|? ? Herr Hrest]; subst.
    apply lineAt_inside in Herr. destruct Herr as [ln Hln].
    assert (E : Host.appendError document acc err idx
                = inr (acc ++ Host.blockText idx err ln))
      by (apply appendError_inr; eauto).
    rewrite E. apply IH, Hrest.
Qed.

Lemma forEach_inside document errors : forall idx acc ctx,
  Host.forEach document errors idx acc = inr ctx ->
  Forall (Host.startsInDocument document) errors.
Proof.
  induction errors as [|err rest IH]; simpl; intros idx acc ctx H.
  - constructor.
  - destruct (Host.appendError document acc err idx) as [e|acc'] eqn:E;
      [discriminate|].
    constructor; [|eapply IH, H].
    apply appendError_inr in E. destruct E as [ln [Hln _]].
    apply lineAt_inside. eauto.
Qed.

Lemma forEach_inl document errors : forall idx acc e,
  Host.forEach document errors idx acc = inl e ->
  e = Host.IllegalValueForLine.
Proof.
  induction errors as [|err rest IH]; simpl; intros idx acc e H.
  - discriminate.
  - destruct (Host.appendError document acc err idx) as [e'|acc'] eqn:E.
    + injection H as <-. apply appendError_inl in E. tauto.
    + eapply IH, H.
Qed.

End Block.

(** ** The analyze operation *)

Section Analyze.
Context {path : PathModule}.

(** [_analyzeCurrentFile] with the plumbing of the monad run: the four
    ways it ends. *)
Lemma analyzeCurrentFile_cases env s :
  Host._analyzeCurrentFile env s =
  match Host._view s with
  | None => (s, [], inr tt)
  | Some w =>
      match activeTextEditor env with
      | None =>
          (s, [Host.PostMessage w (Host.showResult Host.noActiveFile)],
           inr tt)
      | Some editor =>
          let errors :=
            filter Host.isError
              (getDiagnostics env (uri (document editor))) in
          match errors with
          | [] =>
              (s, [Host.PostMessage w
                     (Host.showResult Host.noErrorsFound)], inr tt)
          | _ :: _ =>
              match Host.buildErrorContext (document editor) errors with
              | inl e => (s, [], inl e)
              | inr ctx =>
                  (s, [Host.PostMessage w (Host.analyzeWithAI ctx)],
                   inr tt)
              end
          end
      end
  end.
Proof.
  unfold Host._analyzeCurrentFile, Host.bind, Host.read_view,
    Host.postMessage, Host.bind, Host.read_view, Host.emit, Host.lift,
    Host.ret.
  destruct (Host._view s) as [w|] eqn:Hv; [|reflexivity].
  destruct (activeTextEditor env) as [editor|]; [|rewrite Hv; reflexivity].
  destruct (filter Host.isError _) as [|d errors] eqn:Hf; simpl.
  - rewrite Hv. reflexivity.
  - destruct (Host.buildErrorContext _ _) as [e|ctx]; [reflexivity|].
    rewrite Hv. reflexivity.
Qed.

Lemma analyze_unfold env :
  Host.analyze env = Host._analyzeCurrentFile env.
Proof. reflexivity. Qed.

Lemma analyzeCurrentFile_frame env s :
  Host.after (Host._analyzeCurrentFile env) s = s.
Proof.
  unfold Host.after. rewrite analyzeCurrentFile_cases.
  destruct (Host._view s); [|reflexivity].
  destruct (activeTextEditor env); [|reflexivity]. simpl.
  destruct (filter _ _); [reflexivity|].
  destruct (Host.buildErrorContext _ _); reflexivity.
Qed.

Lemma analyzeCurrentFile_emits env s e :
  In e (Host.emitted (Host._analyzeCurrentFile env) s) ->
  exists w m, Host._view s = Some w /\ e = Host.PostMessage w m.
Proof.
  unfold Host.emitted. rewrite analyzeCurrentFile_cases.
  destruct (Host._view s) as [w|]; [|intros []].
  destruct (activeTextEditor env); simpl.
  - destruct (filter _ _); simpl.
    + intros [<-|[]]; eauto.
    + destruct (Host.buildErrorContext _ _); simpl;
        [intros []|intros [<-|[]]; eauto].
  - intros [<-|[]]; eauto.
Qed.

Lemma onDidReceiveMessage_frame env c s :
  Host.after (Host.onDidReceiveMessage env c) s = s.
Proof.
  unfold Host.onDidReceiveMessage.
  destruct (jsstring_eqb c _); [apply analyzeCurrentFile_frame|reflexivity].
Qed.

Lemma onDidReceiveMessage_emits env c s e :
  In e (Host.emitted (Host.onDidReceiveMessage env c) s) ->
  exists w m, Host._view s = Some w /\ e = Host.PostMessage w m.
Proof.
  unfold Host.onDidReceiveMessage.
  destruct (jsstring_eqb c _); [apply analyzeCurrentFile_emits|intros []].
Qed.

Lemma exec_ext {A} (m : Host.M A) W :
  Host.ext (fst (Host.exec m W)) = Host.after m (Host.ext W).
Proof.
  unfold Host.exec, Host.after.
  destruct (m (Host.ext W)) as [[s out] r]. reflexivity.
Qed.

Lemma exec_trace {A} (m : Host.M A) W :
  Host.trace (fst (Host.exec m W))
  = Host.trace W ++ Host.emitted m (Host.ext W).
Proof.
  unfold Host.exec, Host.emitted.
  destruct (m (Host.ext W)) as [[s out] r]. reflexivity.
Qed.

(** A listener exists only on a view that was resolved, and resolving
    stores a view: whenever a message can arrive, [_view] is set. Nothing
    ever assigns [panel]. *)
Lemma reachable_invariant W :
  Host.reachable W ->
  Host.panel (Host.ext W) = None
  /\ forall w, Host.listening W w ->
       exists v, Host._view (Host.ext W) = Some v.
Proof.
  induction 1 as [u|W ev W' HW [IHp IHv] Hstep].
  - split; [reflexivity|]. intros w [H|[H|[]]]; discriminate.
  - destruct Hstep as [W w|W w env c Hl].
    + split; [exact IHp|]. intros _ _. exists w. reflexivity.
    + rewrite exec_ext, onDidReceiveMessage_frame. split; [exact IHp|].
      intros w' Hw'. destruct (IHv w Hl) as [v Hv]. eauto.
Qed.

Lemma reachable_view W w :
  Host.reachable W -> Host.listening W w ->
  exists v, Host._view (Host.ext W) = Some v.
Proof. intros HW. apply (reachable_invariant W HW). Qed.

Lemma resolved_reachable u w : Host.reachable (Host.resolved u w).
Proof.
  eapply Host.reach_step; [apply Host.reach_activate|].
  apply Host.step_resolve.
Qed.

Lemma resolved_listening u w : Host.listening (Host.resolved u w) w.
Proof. unfold Host.listening. simpl. auto 10. Qed.

End Analyze.

Lemma isError_severity (d : Diagnostic) :
  Host.isError d = true <-> severity d = Error.
Proof.
  unfold Host.isError. destruct (severity d); simpl; split;
    congruence.
Qed.

Lemma filter_isError_nil (ds : list Diagnostic) :
  filter Host.isError ds = [] <-> Forall (fun d => severity d <> Error) ds.
Proof.
  induction ds as [|d ds IH]; simpl.
  - split; constructor.
  - destruct (Host.isError d) eqn:E.
    + split; [discriminate|]. intros H. inversion H; subst.
      apply isError_severity in E. contradiction.
    + rewrite IH. split; intros H.
      * constructor; [|exact H]. rewrite <- isError_severity. congruence.
      * inversion H; assumption.
Qed.

Section Claims.
Context {path : PathModule}.

Lemma buildErrorContext_defined document errors :
  Forall (Host.startsInDocument document) errors
  <-> exists ctx, Host.buildErrorContext document errors = inr ctx.
Proof.
  unfold Host.buildErrorContext. split.
  - apply forEach_total.
  - intros [ctx H]. eapply forEach_inside, H.
Qed.

Lemma buildErrorContext_blocks document errors ctx :
  Host.buildErrorContext document errors = inr ctx ->
  exists blocks,
    ctx = lit "File: " ++ basename (fileName document) ++ LF ++ LF
            ++ concat blocks
    /\ length blocks = length errors
    /\ forall i err, nth_error errors i = Some err ->
         exists ln, lineAt document (line (start (range err))) = Some ln
           /\ nth_error blocks i
               = Some (Host.blockText (N.of_nat i) err ln).
Proof.
  unfold Host.buildErrorContext. intros H.
  destruct (forEach_inr _ _ _ _ _ H) as [blocks [-> [Hlen Hnth]]].
  exists blocks. repeat rewrite <- app_assoc. repeat split; auto.
Qed.

(** What a posted report was built from. *)
Lemma analyze_report env s w ctx :
  In (Host.PostMessage w (Host.analyzeWithAI ctx))
     (Host.emitted (Host.analyze env) s) ->
  exists editor,
    activeTextEditor env = Some editor
    /\ Host._view s = Some w
    /\ Host.buildErrorContext (document editor)
         (filter Host.isError
            (getDiagnostics env (uri (document editor)))) = inr ctx.
Proof.
  rewrite analyze_unfold. unfold Host.emitted.
  rewrite analyzeCurrentFile_cases.
  destruct (Host._view s) as [v|]; [|intros []].
  destruct (activeTextEditor env) as [editor|]; simpl.
  - destruct (filter _ _) as [|d errors] eqn:Hf; simpl.
    + intros [H|[]]; discriminate.
    + destruct (Host.buildErrorContext _ _) as [e|c] eqn:Hb; simpl;
        [intros []|].
      intros [H|[]]. injection H as -> ->. exists editor.
      rewrite Hf. auto.
  - intros [H|[]]; discriminate.
Qed.

(** C1, amended: In every analysis of a run of the extension with an
    active editor whose document has at least one diagnostic of severity
    [Error], each of them starting on a line of the document, a report is
    posted and it holds one block for each diagnostic whose severity is
    [Error] and no other block: each such diagnostic has its block, built
    from its own source line, each block belongs to such a diagnostic,
    there are as many blocks as [Error] diagnostics, and diagnostics of
    any other severity have no influence on what the analysis does. *)
Theorem analyze_reports_errors_only W w env editor :
  Host.reachable W -> Host.listening W w ->
  activeTextEditor env = Some editor ->
  let diagnostics := getDiagnostics env (uri (document editor)) in
  Exists (fun d => severity d = Error) diagnostics ->
  (forall d, In d diagnostics -> severity d = Error ->
     Host.startsInDocument (document editor) d) ->
  (exists v blocks,
     Host._view (Host.ext W) = Some v
     /\ Host.emitted (Host.analyze env) (Host.ext W)
        = [Host.PostMessage v
             (Host.analyzeWithAI
                (lit "File: " ++ basename (fileName (document editor))
                   ++ LF ++ LF ++ concat blocks))]
     /\ length blocks
        = length (filter (fun d => match severity d with
                                   | Error => true
                                   | _ => false
                                   end) diagnostics)
     /\ (forall d, In d diagnostics -> severity d = Error ->
           exists i ln,
             lineAt (document editor) (line (start (range d))) = Some ln
             /\ nth_error blocks i
                = Some (Host.blockText (N.of_nat i) d ln))
     /\ (forall i block, nth_error blocks i = Some block ->
           exists d ln,
             In d diagnostics /\ severity d = Error
             /\ lineAt (document editor) (line (start (range d))) = Some ln
             /\ block = Host.blockText (N.of_nat i) d ln))
  /\ (forall env',
        activeTextEditor env' = Some editor ->
        filter (fun d => match severity d with
                         | Error => true
                         | _ => false
                         end)
          (getDiagnostics env' (uri (document editor)))
        = filter (fun d => match severity d with
                           | Error => true
                           | _ => false
                           end) diagnostics ->
        Host.analyze env' (Host.ext W) = Host.analyze env (Host.ext W)).
Proof.
  intros HW Hl Hed diagnostics Hex Hin.
  assert (Hfilter : forall ds,
            filter (fun d => match severity d with
                             | Error => true
                             | _ => false
                             end) ds = filter Host.isError ds).
  { intros ds. apply filter_ext. intros d. unfold Host.isError.
    destruct (severity d); reflexivity. }
  split.
  - destruct (reachable_view W w HW Hl) as [v Hv].
    assert (Hdef : exists ctx,
              Host.buildErrorContext (document editor)
                (filter Host.isError diagnostics) = inr ctx).
    { apply buildErrorContext_defined, Forall_forall. intros d Hd.
      apply filter_In in Hd. destruct Hd as [Hd Hs].
      apply Hin; [exact Hd|apply isError_severity, Hs]. }
    destruct Hdef as [ctx Hctx].
    destruct (buildErrorContext_blocks _ _ _ Hctx)
      as [blocks [Hshape [Hlen Hnth]]].
    exists v, blocks. split; [exact Hv|]. split; [|split; [|split]].
    + rewrite analyze_unfold. unfold Host.emitted.
      rewrite analyzeCurrentFile_cases, Hv, Hed. simpl. fold diagnostics.
      destruct (filter Host.isError diagnostics) as [|d errors] eqn:Hf.
      * apply filter_isError_nil in Hf. apply Exists_exists in Hex.
        destruct Hex as [d [Hd Hs]]. rewrite Forall_forall in Hf.
        contradiction (Hf d Hd Hs).
      * rewrite Hctx, Hshape. reflexivity.
    + rewrite Hfilter. exact Hlen.
    + intros d Hd Hsev.
      assert (Hf : In d (filter Host.isError diagnostics))
        by (apply filter_In; split; [exact Hd|apply isError_severity, Hsev]).
      apply In_nth_error in Hf. destruct Hf as [i Hi].
      destruct (Hnth i d Hi) as [ln [Hln H]]. eauto.
    + intros i block Hi.
      assert (Hlt : (i < length (filter Host.isError diagnostics))%nat)
        by (rewrite <- Hlen; apply nth_error_Some; congruence).
      apply nth_error_Some in Hlt.
      destruct (nth_error (filter Host.isError diagnostics) i) as [d|] eqn:Hd;
        [|congruence].
      destruct (Hnth i d Hd) as [ln [Hln H]].
      apply nth_error_In, filter_In in Hd. destruct Hd as [Hd Hsev].
      exists d, ln. rewrite isError_severity in Hsev.
      repeat split; auto. congruence.
  - intros env' Hed' Hf. rewrite !Hfilter in Hf. apply eq_sym.
    rewrite !analyze_unfold.
    rewrite (analyzeCurrentFile_cases env (Host.ext W)),
      (analyzeCurrentFile_cases env' (Host.ext W)).
    rewrite Hed, Hed'. simpl. fold diagnostics. rewrite Hf. reflexivity.
Qed.

(** C2, amended: For every list of diagnostics that each start on a line
    of the document, the formatted text is produced and it is the header
    followed by exactly one block per error, in the order of the list; the
    [i]-th block (from 0) is labelled [Error i+1] and its line number is
    the diagnostic's 0-based start line plus one. *)
Theorem errorContext_one_block_per_error document errors :
  Forall (Host.startsInDocument document) errors ->
  exists blocks,
    Host.buildErrorContext document errors
    = inr (lit "File: " ++ basename (fileName document) ++ LF ++ LF
             ++ concat blocks)
    /\ length blocks = length errors
    /\ forall i err, nth_error errors i = Some err ->
         exists ln, lineAt document (line (start (range err))) = Some ln
           /\ nth_error blocks i
               = Some (lit "Error " ++ Number_toString (N.of_nat i + 1)
                         ++ lit ": " ++ message err ++ LF
                         ++ lit "Line "
                         ++ Number_toString (line (start (range err)) + 1)
                         ++ lit ": " ++ trim (text ln) ++ LF ++ LF).
Proof.
  intros Hin. apply buildErrorContext_defined in Hin.
  destruct Hin as [ctx Hctx].
  destruct (buildErrorContext_blocks document errors ctx Hctx)
    as [blocks [Hshape [Hlen Hnth]]].
  exists blocks. rewrite Hctx, Hshape. repeat split; auto.
Qed.



(** C9: The block of a diagnostic whose range runs over several lines
    holds the text of the line its range starts on and nothing of the
    lines after it: the block is the same whatever the range's end is and
    whatever the other lines of the document are. *)
Theorem block_shows_start_line_only document err idx acc ln :
  lineAt document (line (start (range err))) = Some ln ->
  (line (start (range err)) < line (end_ (range err)))%N ->
  Host.appendError document acc err idx
    = inr (acc ++ lit "Error " ++ Number_toString (idx + 1)
             ++ lit ": " ++ message err ++ LF
             ++ lit "Line "
             ++ Number_toString (line (start (range err)) + 1)
             ++ lit ": " ++ trim (text ln) ++ LF ++ LF)
  /\ forall document' err',
       lineAt document' (line (start (range err))) = Some ln ->
       start (range err') = start (range err) ->
       message err' = message err ->
       Host.appendError document' acc err' idx
         = Host.appendError document acc err idx.
Proof.
  intros Hln _.
  assert (H : Host.appendError document acc err idx
              = inr (acc ++ Host.blockText idx err ln))
    by (apply appendError_inr; eauto).
  split; [exact H|].
  intros document' err' Hln' Hs Hm. rewrite H.
  apply appendError_inr. exists ln. rewrite Hs. split; [exact Hln'|].
  unfold Host.blockText. rewrite Hs, Hm. reflexivity.
Qed.

(** C3: In every analysis of a run of the extension, the "no active
    file" message is posted exactly when there is no active editor and
    the "no errors found" message exactly when there is an active editor
    whose document has no diagnostic of severity [Error]; in both cases
    that message is the only one posted, it is a [showResult] message, no
    [analyzeWithAI] message is sent, and the operation ends normally. *)
Theorem analyze_informational_messages W w env :
  Host.reachable W -> Host.listening W w ->
  let out := Host.posted (Host.emitted (Host.analyze env) (Host.ext W)) in
  (In (Host.showResult Host.noActiveFile) out
     <-> activeTextEditor env = None)
  /\ (In (Host.showResult Host.noErrorsFound) out
       <-> exists editor,
             activeTextEditor env = Some editor
             /\ Forall (fun d => severity d <> Error)
                  (getDiagnostics env (uri (document editor))))
  /\ (In (Host.showResult Host.noActiveFile) out
         \/ In (Host.showResult Host.noErrorsFound) out ->
       length out = 1
       /\ (forall m, In m out ->
             Host.command m = lit "showResult")
       /\ (forall errorContext, ~ In (Host.analyzeWithAI errorContext) out)
       /\ Host.outcome (Host.analyze env) (Host.ext W) = inr tt).
Proof.
  intros HW Hl. destruct (reachable_view W w HW Hl) as [v Hv].
  rewrite analyze_unfold. unfold Host.emitted, Host.outcome.
  rewrite analyzeCurrentFile_cases, Hv.
  destruct (activeTextEditor env) as [editor|]; simpl.
  - assert (Hed : forall P : TextEditor -> Prop,
              (exists editor0, Some editor = Some editor0 /\ P editor0)
              <-> P editor).
    { intros P. split; [|eauto]. intros [editor0 [He H]].
      injection He as <-. exact H. }
    rewrite Hed, <- filter_isError_nil.
    destruct (filter _ _) as [|d errors] eqn:Hf; simpl.
    + split; [|split; [|intros _; repeat split]].
      * split; [intros [H|[]]|]; discriminate.
      * tauto.
      * intros m [<-|[]]. reflexivity.
      * intros c [H|[]]. discriminate.
    + destruct (Host.buildErrorContext _ _) as [e|c]; simpl.
      * split; [|split].
        -- split; [intros []|discriminate].
        -- split; [intros []|discriminate].
        -- intros [[]|[]].
      * split; [|split].
        -- split; [intros [H|[]]|]; discriminate.
        -- split; [intros [H|[]]|]; discriminate.
        -- intros [[H|[]]|[H|[]]]; discriminate.
  - split; [|split; [|intros _; repeat split]].
    + tauto.
    + split; [intros [H|[]]; discriminate|].
      intros [editor [H _]]. discriminate.
    + intros m [<-|[]]. reflexivity.
    + intros c [H|[]]. discriminate.
Qed.

(** C7: The analyze operation changes none of the extension's
    variables ([panel], [_extensionUri], [_view]): all it does is post at
    most one message, to the stored view, without waiting for an answer.
    The only variable any operation of the provider assigns is [_view],
    in [resolveWebviewView]. *)
Theorem analyze_only_posts env s :
  Host.after (Host.analyze env) s = s
  /\ (forall c, Host.after (Host.onDidReceiveMessage env c) s = s)
  /\ (length (Host.emitted (Host.analyze env) s) <= 1)%nat
  /\ (forall e, In e (Host.emitted (Host.analyze env) s) ->
        exists w m, Host._view s = Some w /\ e = Host.PostMessage w m)
  /\ (Host.outcome (Host.analyze env) s = inr tt
      \/ Host.outcome (Host.analyze env) s = inl Host.IllegalValueForLine
         /\ Host.emitted (Host.analyze env) s = [])
  /\ (forall w,
        Host.panel (Host.after (Host.resolveWebviewView w) s)
          = Host.panel s
        /\ Host._extensionUri (Host.after (Host.resolveWebviewView w) s)
            = Host._extensionUri s
        /\ Host._view (Host.after (Host.resolveWebviewView w) s)
            = Some w).
Proof.
  split; [apply analyzeCurrentFile_frame|].
  split; [intros c; apply onDidReceiveMessage_frame|].
  split; [|split; [apply analyzeCurrentFile_emits|split]].
  - rewrite analyze_unfold. unfold Host.emitted.
    rewrite analyzeCurrentFile_cases.
    destruct (Host._view s); simpl; [|lia].
    destruct (activeTextEditor env); simpl; [|lia].
    destruct (filter _ _); simpl; [lia|].
    destruct (Host.buildErrorContext _ _); simpl; lia.
  - rewrite analyze_unfold. unfold Host.emitted, Host.outcome.
    rewrite analyzeCurrentFile_cases.
    destruct (Host._view s); simpl; [|auto].
    destruct (activeTextEditor env); simpl; [|auto].
    destruct (filter _ _) as [|d errors]; simpl; [auto|].
    destruct (Host.buildErrorContext _ _) as [e|ctx] eqn:Hb; simpl; [|auto].
    right. split; [|reflexivity]. f_equal.
    unfold Host.buildErrorContext in Hb. eapply forEach_inl, Hb.
  - intros w. repeat split.
Qed.

(** C8: While no view has been resolved ([_view] is undefined) the
    analyze operation returns at once: it posts nothing, throws nothing
    and changes nothing, whatever the editor and the diagnostics are. *)
Theorem analyze_without_view env s :
  Host._view s = None ->
  Host._analyzeCurrentFile env s = (s, [], inr tt).
Proof. intros H. rewrite analyzeCurrentFile_cases, H. reflexivity. Qed.

(** C5, amended: In every analysis of a run of the extension in which
    there is an active editor, its document has at least one diagnostic
    of severity [Error] and each such diagnostic starts on a line of the
    document, exactly one message is posted: an [analyzeWithAI] message
    to the stored view, carrying the text block built from those
    diagnostics. *)
Theorem analyze_posts_report W w env editor :
  Host.reachable W -> Host.listening W w ->
  activeTextEditor env = Some editor ->
  let diagnostics := getDiagnostics env (uri (document editor)) in
  Exists (fun d => severity d = Error) diagnostics ->
  (forall d, In d diagnostics -> severity d = Error ->
     Host.startsInDocument (document editor) d) ->
  exists v errorContext,
    Host._view (Host.ext W) = Some v
    /\ Host.buildErrorContext (document editor)
         (filter Host.isError diagnostics) = inr errorContext
    /\ Host.emitted (Host.analyze env) (Host.ext W)
        = [Host.PostMessage v (Host.analyzeWithAI errorContext)]
    /\ Host.command (Host.analyzeWithAI errorContext)
        = lit "analyzeWithAI"
    /\ Host.outcome (Host.analyze env) (Host.ext W) = inr tt.
Proof.
  intros HW Hl Hed diagnostics Hex Hin.
  destruct (reachable_view W w HW Hl) as [v Hv].
  assert (Hdef : exists ctx,
            Host.buildErrorContext (document editor)
              (filter Host.isError diagnostics) = inr ctx).
  { apply buildErrorContext_defined, Forall_forall. intros d Hd.
    apply filter_In in Hd. destruct Hd as [Hd Hs].
    apply Hin; [exact Hd|apply isError_severity, Hs]. }
  destruct Hdef as [ctx Hctx]. exists v, ctx.
  assert (Hne : filter Host.isError diagnostics <> []).
  { intros Hnil. apply filter_isError_nil in Hnil.
    apply Exists_exists in Hex. destruct Hex as [d [Hd Hs]].
    rewrite Forall_forall in Hnil. exact (Hnil d Hd Hs). }
  rewrite analyze_unfold. unfold Host.emitted, Host.outcome.
  rewrite analyzeCurrentFile_cases, Hv, Hed. simpl. fold diagnostics.
  destruct (filter Host.isError diagnostics) as [|d errors];
    [congruence|].
  rewrite Hctx. repeat split.
Qed.

(** C10, amended: The analyze operation is a function of the stored
    view, of whether there is an active editor, and of the name, the
    lines and the diagnostics of its document: two invocations that agree
    on these post the same messages with the same command and payload
    and end the same way. It posts exactly one message when the view is
    defined and every diagnostic of severity [Error] starts on a line of
    the document, and none when the view is undefined. *)
Theorem analyze_deterministic s1 s2 env1 env2 :
  Host._view s1 = Host._view s2 ->
  Host.observed env1 = Host.observed env2 ->
  Host.emitted (Host.analyze env1) s1 = Host.emitted (Host.analyze env2) s2
  /\ Host.outcome (Host.analyze env1) s1
      = Host.outcome (Host.analyze env2) s2
  /\ (forall w, Host._view s1 = Some w -> Host.errorsInDocument env1 ->
        exists m, Host.emitted (Host.analyze env1) s1
                  = [Host.PostMessage w m])
  /\ (Host._view s1 = None -> Host.emitted (Host.analyze env1) s1 = []).
Proof.
  intros Hv Hobs. rewrite !analyze_unfold.
  unfold Host.emitted, Host.outcome.
  rewrite (analyzeCurrentFile_cases env1 s1),
    (analyzeCurrentFile_cases env2 s2), <- Hv.
  unfold Host.observed, Host.errorsInDocument in *.
  destruct (Host._view s1) as [w|];
    [|split; [reflexivity|]; split; [reflexivity|];
      split; [discriminate|reflexivity]].
  destruct (activeTextEditor env1) as [ed1|],
    (activeTextEditor env2) as [ed2|]; try discriminate; simpl.
  - injection Hobs as Hname Hlines Hdiag. rewrite <- Hdiag.
    assert (Hb : forall errors,
              Host.buildErrorContext (document ed2) errors
              = Host.buildErrorContext (document ed1) errors).
    { intros errors. unfold Host.buildErrorContext. rewrite Hname.
      generalize (lit "File: " ++ basename (fileName (document ed2))
                    ++ LF ++ LF), 0%N.
      induction errors as [|err errors IH]; intros acc idx;
        [reflexivity|].
      simpl. unfold Host.appendError, lineAt. rewrite Hlines.
      destruct (nth_error _ _); [apply IH|reflexivity]. }
    destruct (filter Host.isError _) as [|d errors] eqn:Hf.
    + split; [reflexivity|]. split; [reflexivity|].
      split; [|discriminate].
      intros w' Hw' _. injection Hw' as <-. simpl. eauto.
    + rewrite Hb.
      destruct (Host.buildErrorContext (document ed1) (d :: errors))
        as [e|ctx] eqn:Hctx; simpl.
      * split; [reflexivity|]. split; [reflexivity|].
        split; [|discriminate]. intros w' _ Hall.
        apply buildErrorContext_defined in Hall.
        destruct Hall as [ctx Hall]. congruence.
      * split; [reflexivity|]. split; [reflexivity|].
        split; [|discriminate].
        intros w' Hw' _. injection Hw' as <-. simpl. eauto.
  - split; [reflexivity|]. split; [reflexivity|].
    split; [|discriminate].
    intros w' Hw' _. injection Hw' as <-. simpl. eauto.
Qed.

End Claims.

(** ** The statements at sample inputs *)

Example main_report :
  Host.emitted (Host.analyze Host.main_env)
    (Host.ext (Host.resolved (lit "ext") 4))
  = [Host.PostMessage 4 (Host.analyzeWithAI Host.main_errorContext)].
Proof. vm_compute. reflexivity. Qed.

Example noEditor_report :
  Host.emitted (Host.analyze Host.noEditor_env)
    (Host.ext (Host.resolved (lit "ext") 4))
  = [Host.PostMessage 4 (Host.showResult Host.noActiveFile)].
Proof. vm_compute. reflexivity. Qed.

Example warnings_only_report :
  Host.emitted
    (Host.analyze
       (Host.envOf Host.main_ts [Host.mkDiagnostic 0 0 "unused" Warning]))
    (Host.ext (Host.resolved (lit "ext") 4))
  = [Host.PostMessage 4 (Host.showResult Host.noErrorsFound)].
Proof. vm_compute. reflexivity. Qed.

(** C1, as stated, fails: the document of [stale_env] has a diagnostic of
    severity [Error], yet no report is formatted or posted that could
    include it, because its start line is past the end of the document. *)
Lemma stale_diagnostic_not_reported :
  let W := Host.resolved (lit "ext") 4 in
  Host.reachable W /\ Host.listening W 4
  /\ activeTextEditor Host.stale_env = Some {| document := Host.main_ts |}
  /\ In (Host.mkDiagnostic 7 7 "Unexpected token." Error)
       (getDiagnostics Host.stale_env (uri Host.main_ts))
  /\ severity (Host.mkDiagnostic 7 7 "Unexpected token." Error) = Error
  /\ Host.posted (Host.emitted (Host.analyze Host.stale_env) (Host.ext W))
     = [].
Proof.
  split; [apply resolved_reachable|].
  split; [apply resolved_listening|].
  split; [reflexivity|].
  split; [left; reflexivity|].
  split; [reflexivity|]. vm_compute. reflexivity.
Qed.

Lemma analyze_reports_errors_only_witness :
  exists v blocks i,
    Host.emitted (Host.analyze Host.main_env)
      (Host.ext (Host.resolved (lit "ext") 4))
    = [Host.PostMessage v
         (Host.analyzeWithAI
            (lit "File: " ++ lit "main.ts" ++ LF ++ LF ++ concat blocks))]
    /\ length blocks = 2%nat
    /\ nth_error blocks i
       = Some (lit "Error " ++ Number_toString (N.of_nat i + 1)
                 ++ lit ": Expression expected." ++ LF
                 ++ lit "Line 3: bar);" ++ LF ++ LF).
Proof.
  destruct (analyze_reports_errors_only (Host.resolved (lit "ext") 4) 4%nat
              Host.main_env {| document := Host.main_ts |}
              (resolved_reachable _ _) (resolved_listening _ _) eq_refl)
    as [[v [blocks [_ [Hout [Hlen [Hblock _]]]]]] _].
  - apply Exists_cons_tl, Exists_cons_hd. reflexivity.
  - intros d [<-|[<-|[<-|[<-|[]]]]] Hs; try discriminate Hs;
      vm_compute; reflexivity.
  - destruct (Hblock (Host.mkDiagnostic 2 2 "Expression expected." Error))
      as [i [ln [Hln Hi]]].
    + right. right. right. left. reflexivity.
    + reflexivity.
    + injection Hln as <-.
      exists v, blocks, i. split; [exact Hout|]. split; [exact Hlen|].
      exact Hi.
Defined.

(** C2, as stated, fails: for this non-empty list of one diagnostic of
    severity [Error] there is no formatted text at all: the loop throws at
    [lineAt], the start line being past the end of the document. *)
Lemma stale_diagnostic_no_text :
  [Host.mkDiagnostic 7 7 "Unexpected token." Error] <> []
  /\ Forall (fun d => severity d = Error)
       [Host.mkDiagnostic 7 7 "Unexpected token." Error]
  /\ Host.buildErrorContext Host.main_ts
       [Host.mkDiagnostic 7 7 "Unexpected token." Error]
     = inl Host.IllegalValueForLine.
Proof.
  split; [discriminate|]. split; [repeat constructor|].
  vm_compute. reflexivity.
Qed.

Lemma errorContext_one_block_per_error_witness :
  exists blocks,
    Host.buildErrorContext Host.main_ts
      (filter Host.isError Host.main_diagnostics)
    = inr (lit "File: " ++ lit "main.ts" ++ LF ++ LF ++ concat blocks)
    /\ length blocks = 2%nat.
Proof.
  destruct (errorContext_one_block_per_error Host.main_ts
              (filter Host.isError Host.main_diagnostics))
    as [blocks [H1 [H2 _]]].
  - repeat constructor.
  - exists blocks. split; [exact H1|exact H2].
Defined.



Lemma block_shows_start_line_only_witness :
  Host.appendError Host.main_ts []
    (Host.mkDiagnostic 1 2 "Cannot find name 'foo'." Error) 0
  = inr (lit "Error 1: Cannot find name 'foo'." ++ LF
           ++ lit "Line 2: foo(" ++ LF ++ LF).
Proof.
  exact (proj1 (block_shows_start_line_only Host.main_ts
                  (Host.mkDiagnostic 1 2 "Cannot find name 'foo'." Error)
                  0 [] {| lineNumber := 1; text := lit "   foo(  " |}
                  eq_refl eq_refl)).
Defined.

Lemma analyze_informational_messages_witness :
  In (Host.showResult Host.noActiveFile)
     (Host.posted (Host.emitted (Host.analyze Host.noEditor_env)
                     (Host.ext (Host.resolved (lit "ext") 4)))).
Proof.
  apply (proj1 (analyze_informational_messages
                  (Host.resolved (lit "ext") 4) 4 Host.noEditor_env
                  (resolved_reachable _ _) (resolved_listening _ _))).
  reflexivity.
Defined.

Lemma analyze_without_view_witness :
  Host._analyzeCurrentFile Host.main_env (Host.ext (Host.activate (lit "ext")))
  = (Host.ext (Host.activate (lit "ext")), [], inr tt).
Proof.
  apply (analyze_without_view Host.main_env
           (Host.ext (Host.activate (lit "ext")))).
  reflexivity.
Defined.

(** C5, as stated, fails: a diagnostic of severity [Error] whose start line
    is past the end of the document makes [lineAt] throw inside the loop,
    and the analysis posts nothing. *)
Lemma stale_diagnostic_posts_nothing :
  let W := Host.resolved (lit "ext") 4 in
  Host.reachable W /\ Host.listening W 4
  /\ activeTextEditor Host.stale_env = Some {| document := Host.main_ts |}
  /\ Exists (fun d => severity d = Error)
       (getDiagnostics Host.stale_env (uri Host.main_ts))
  /\ Host.emitted (Host.analyze Host.stale_env) (Host.ext W) = []
  /\ Host.outcome (Host.analyze Host.stale_env) (Host.ext W)
      = inl Host.IllegalValueForLine.
Proof.
  split; [apply resolved_reachable|].
  split; [apply resolved_listening|].
  split; [reflexivity|].
  split; [apply Exists_cons_hd; reflexivity|].
  split; vm_compute; reflexivity.
Qed.

Lemma analyze_posts_report_witness :
  exists v,
    Host.emitted (Host.analyze Host.main_env)
      (Host.ext (Host.resolved (lit "ext") 4))
    = [Host.PostMessage v (Host.analyzeWithAI Host.main_errorContext)].
Proof.
  destruct (analyze_posts_report (Host.resolved (lit "ext") 4) 4
              Host.main_env {| document := Host.main_ts |}
              (resolved_reachable _ _) (resolved_listening _ _) eq_refl)
    as [v [ctx [_ [Hctx [Hout _]]]]].
  - apply Exists_cons_tl, Exists_cons_hd. reflexivity.
  - intros d [<-|[<-|[<-|[<-|[]]]]] Hs; try discriminate Hs;
      vm_compute; reflexivity.
  - exists v. rewrite Hout. vm_compute in Hctx.
    injection Hctx as <-. reflexivity.
Defined.

(** C10, as stated, fails: with the view defined, the same stale diagnostic
    leaves the analysis with no message instead of exactly one. *)
Lemma stale_diagnostic_message_count :
  Host._view (Host.ext (Host.resolved (lit "ext") 4)) = Some 4%nat
  /\ length (Host.posted
               (Host.emitted (Host.analyze Host.stale_env)
                  (Host.ext (Host.resolved (lit "ext") 4)))) = 0%nat
  /\ length (Host.emitted (Host.analyze Host.stale_env)
               (Host.ext (Host.resolved (lit "ext") 4))) <> 1%nat.
Proof. repeat split. vm_compute. discriminate. Qed.

Lemma analyze_deterministic_witness :
  Host.emitted (Host.analyze Host.main_env)
    (Host.ext (Host.resolved (lit "ext") 4))
  = Host.emitted (Host.analyze Host.copy_env) Host.other_extension.
Proof.
  apply (analyze_deterministic (Host.ext (Host.resolved (lit "ext") 4))
           Host.other_extension Host.main_env Host.copy_env);
    reflexivity.
Defined.

(** ** The webview: loading the model *)

Lemma remove_nth_In {A} (l : list A) : forall i y,
  In y (Webview.remove_nth i l) -> In y l.
Proof.
  induction l as [|x l IH]; intros [|i] y; simpl; auto.
  intros [<-|H]; eauto.
Qed.

Lemma remove_nth_filter_false {A} (f : A -> bool) (l : list A) : forall i x,
  nth_error l i = Some x -> f x = false ->
  filter f (Webview.remove_nth i l) = filter f l.
Proof.
  induction l as [|a l IH]; intros [|i] x; simpl; try discriminate.
  - intros H Hx. injection H as ->. rewrite Hx. reflexivity.
  - intros H Hx. rewrite (IH i x H Hx). reflexivity.
Qed.

Lemma remove_nth_filter_true {A} (f : A -> bool) (l : list A) : forall i x,
  nth_error l i = Some x -> f x = true ->
  length (filter f l) = S (length (filter f (Webview.remove_nth i l))).
Proof.
  induction l as [|a l IH]; intros [|i] x; simpl; try discriminate.
  - intros H Hx. injection H as ->. rewrite Hx. reflexivity.
  - intros H Hx. destruct (f a); simpl; rewrite (IH i x H Hx); reflexivity.
Qed.

Lemma filter_length_0 {A} (f : A -> bool) (l : list A) :
  length (filter f l) = 0%nat -> filter f l = [].
Proof. destruct (filter f l); [reflexivity|discriminate]. Qed.

Lemma boot_invariant : Webview.invariant Webview.boot.
Proof.
  constructor; vm_compute; try lia; try discriminate; try tauto.
  intros _. repeat split. discriminate.
Qed.

Lemma step_invariant p ev p' :
  Webview.invariant p -> Webview.step p ev = Some p' -> Webview.invariant p'.
Proof.
  intros [Hsingle Hbound Hbusy Htimer Hretry Han].
  destruct p as [ini att gen st res dis txt onc tms ld an lg].
  unfold Webview.underway, Webview.retryTimers in *. simpl in *.
  destruct ev as [g|g|message|i| |m|i explanation|i message]; simpl.
  - (* progress_callback *)
    destruct ld as [|ld]; [discriminate|]. intros H. injection H as <-.
    destruct g; constructor; simpl; auto.
  - (* pipeline fulfilled *)
    destruct ld as [|ld]; [discriminate|]. intros H. injection H as <-.
    assert (ld = 0%nat) by lia. subst ld.
    constructor; unfold Webview.underway, Webview.retryTimers; simpl;
      rewrite ?filter_app; simpl; rewrite ?app_nil_r; auto; try lia.
    intros ->. destruct Hbusy as [_ [_ [H _]]]; [lia|discriminate].
  - (* pipeline rejected *)
    destruct ld as [|ld]; [discriminate|]. intros H. injection H as <-.
    assert (ld = 0%nat) by lia. subst ld.
    assert (Hnone : filter Webview.isRetryTimer tms = [])
      by (apply filter_length_0; lia).
    destruct Hbusy as [Hini [Hdis [Honc Hatt]]]; [lia|]. subst.
    unfold Webview.initModel_catch. simpl.
    destruct (N.ltb_spec att Webview.MAX_ATTEMPTS) as [Hlt|Hge];
      constructor; unfold Webview.underway, Webview.retryTimers; simpl;
      rewrite ?filter_app, ?Hnone; simpl; auto; try lia; try discriminate.
    intros t [<-|[]]. auto.
  - (* a timeout fires *)
    destruct (nth_error tms i) as [[t d]|] eqn:Hi; [|discriminate].
    intros H. injection H as <-.
    destruct t; simpl.
    + assert (Hin : In (Webview.TInitModel, d)
                      (filter Webview.isRetryTimer tms))
        by (apply filter_In; split; [eapply nth_error_In, Hi|reflexivity]).
      destruct (Htimer _ Hin) as [Hd Hatt].
      pose proof (remove_nth_filter_true Webview.isRetryTimer tms i _ Hi
                    eq_refl) as Hlen.
      assert (ld = 0%nat) by lia. subst ld.
      assert (Hnone : filter Webview.isRetryTimer (Webview.remove_nth i tms)
                      = [])
        by (apply filter_length_0; lia).
      destruct Hbusy as [Hini [Hdis [Honc Hatt1]]]; [lia|]. subst.
      unfold Webview.initModel. simpl.
      constructor; unfold Webview.underway, Webview.retryTimers; simpl;
        rewrite ?Hnone; simpl; auto; try lia; try discriminate.
      all: try (intros _; repeat split; lia); try (intros t []).
    + rewrite <- (remove_nth_filter_false Webview.isRetryTimer tms i _ Hi
                    eq_refl) in *.
      constructor; unfold Webview.underway, Webview.retryTimers; simpl;
        auto.
  - (* click *)
    destruct dis; [discriminate|]. intros H. injection H as <-.
    unfold Webview.onclick. simpl. destruct onc; simpl.
    + constructor; simpl; auto.
    + destruct Hretry as [Hini Hidle]; [reflexivity|]. subst.
      assert (ld = 0%nat) by lia. subst ld.
      assert (Hnone : filter Webview.isRetryTimer tms = [])
        by (apply filter_length_0; lia).
      unfold Webview.initModel. simpl.
      constructor; unfold Webview.underway, Webview.retryTimers; simpl;
        rewrite ?Hnone; simpl; auto; try lia; try discriminate.
      all: try (intros _; repeat split; lia); try (intros t []).
  - (* a message of the host *)
    intros H. injection H as <-. destruct m as [text|errorContext|]; simpl.
    + constructor; simpl; auto.
    + destruct ini; simpl; constructor; simpl; auto.
      intros H. destruct (Hbusy H) as [H' _]. discriminate.
    + constructor; simpl; auto.
  - (* generator fulfilled *)
    destruct (nth_error an i) as [errorContext|] eqn:Hi; [|discriminate].
    intros H. injection H as <-.
    assert (Hini : ini = true)
      by (apply Han; intros ->; destruct i; discriminate).
    constructor; simpl; auto.
    intros H. destruct (Hbusy H) as [H' _]. congruence.
  - (* generator rejected *)
    destruct (nth_error an i) as [errorContext|] eqn:Hi; [|discriminate].
    intros H. injection H as <-.
    assert (Hini : ini = true)
      by (apply Han; intros ->; destruct i; discriminate).
    constructor; simpl; auto.
    intros H. destruct (Hbusy H) as [H' _]. congruence.
Qed.

Lemma reachable_invariant_page p : Webview.reachable p -> Webview.invariant p.
Proof.
  induction 1 as [|p ev p' _ IH Hstep]; [apply boot_invariant|].
  exact (step_invariant _ _ _ IH Hstep).
Qed.

Lemma run_reachable evs : forall p q,
  Webview.reachable p -> Webview.run p evs = Some q -> Webview.reachable q.
Proof.
  induction evs as [|ev evs IH]; simpl; intros p q Hp H.
  - injection H as <-. exact Hp.
  - destruct (Webview.step p ev) as [p'|] eqn:Hstep; [|discriminate].
    eapply IH; [|exact H]. eapply Webview.reach_step; eauto.
Qed.

(** While the retry is offered, nothing but a click changes that, calls
    [pipeline] or touches the counter. *)
Lemma retryOffered_step p ev q :
  Webview.retryOffered p -> Webview.isClick ev = false ->
  Webview.step p ev = Some q ->
  Webview.retryOffered q
  /\ Webview.pipelineCalls q = Webview.pipelineCalls p
  /\ Webview.initAttempts q = Webview.initAttempts p.
Proof.
  intros [Hidle Hini Han Honc Htxt Hdis] Hev.
  destruct p as [ini att gen st res dis txt onc tms ld an lg].
  unfold Webview.underway, Webview.retryTimers, Webview.pipelineCalls in *.
  simpl in *. subst.
  assert (ld = 0%nat) by lia. subst ld.
  assert (Hnone : filter Webview.isRetryTimer tms = [])
    by (apply filter_length_0; lia).
  destruct ev as [g|g|message|i| |m|i explanation|i message]; simpl;
    try discriminate.
  - destruct (nth_error tms i) as [[t d]|] eqn:Hi; [|discriminate].
    intros H. injection H as <-.
    destruct t.
    + assert (Hin : In (Webview.TInitModel, d)
                      (filter Webview.isRetryTimer tms))
        by (apply filter_In; split; [eapply nth_error_In, Hi|reflexivity]).
      rewrite Hnone in Hin. destruct Hin.
    + split; [|split; reflexivity].
      constructor; unfold Webview.underway, Webview.retryTimers; simpl;
        auto.
      rewrite (remove_nth_filter_false Webview.isRetryTimer tms i _ Hi
                 eq_refl), Hnone. reflexivity.
  - intros H. injection H as <-.
    destruct m; simpl; (split; [|split; reflexivity]);
      constructor; unfold Webview.underway, Webview.retryTimers; simpl;
      auto; rewrite Hnone; reflexivity.
  - destruct i; discriminate.
  - destruct i; discriminate.
Qed.

Lemma retryOffered_run evs : forall p q,
  Webview.retryOffered p -> Webview.noClick evs ->
  Webview.run p evs = Some q ->
  Webview.retryOffered q
  /\ Webview.pipelineCalls q = Webview.pipelineCalls p
  /\ Webview.initAttempts q = Webview.initAttempts p.
Proof.
  unfold Webview.noClick.
  induction evs as [|ev evs IH]; simpl; intros p q Hp Hev H.
  - injection H as <-. auto.
  - destruct (Webview.step p ev) as [p'|] eqn:Hstep; [|discriminate].
    apply andb_prop in Hev. destruct Hev as [Hev Hevs].
    apply negb_true_iff in Hev.
    destruct (retryOffered_step _ _ _ Hp Hev Hstep) as [Hp' [Hc Ha]].
    destruct (IH _ _ Hp' Hevs H) as [Hq [Hc' Ha']].
    split; [exact Hq|]. split; congruence.
Qed.

Lemma retryOffered_click q :
  Webview.retryOffered q ->
  exists q',
    Webview.step q Webview.Click = Some q'
    /\ Webview.initAttempts q' = 1%N
    /\ Webview.loading q' = 1%nat
    /\ Webview.pipelineCalls q' = S (Webview.pipelineCalls q)
    /\ Webview.btnText q' = lit "Analyze Errors"
    /\ Webview.btnOnclick q' = Webview.OnAnalyzeErrors.
Proof.
  intros [Hidle Hini Han Honc Htxt Hdis].
  destruct q as [ini att gen st res dis txt onc tms ld an lg].
  unfold Webview.underway, Webview.pipelineCalls in *. simpl in *. subst.
  assert (ld = 0%nat) by lia. subst ld.
  eexists. split; [reflexivity|]. simpl.
  rewrite filter_app, length_app. simpl. repeat split. lia.
Qed.

Lemma nth_error_last {A} (l : list A) (x : A) :
  nth_error (l ++ [x]) (length l) = Some x.
Proof. induction l; simpl; auto. Qed.

Lemma remove_nth_last {A} (l : list A) (x : A) :
  Webview.remove_nth (length l) (l ++ [x]) = l.
Proof. induction l; simpl; congruence. Qed.

(** C6: When a load of the model fails in a run of the page, the attempt
    counter is between 1 and 3. Below 3, exactly one timeout of 2000 ms is
    set that calls [initModel] again, which makes the next attempt. At 3,
    no timeout is set and nothing is under way: the button reads
    "Retry Loading Model" and is enabled, and whatever happens next short
    of a click leaves it so and calls [pipeline] no more; a click sets the
    counter back and starts the first attempt of a new round. *)
Theorem initModel_retry_policy p message p' :
  Webview.reachable p ->
  Webview.step p (Webview.PipelineRejected message) = Some p' ->
  (1 <= Webview.initAttempts p <= Webview.MAX_ATTEMPTS)%N
  /\ Webview.MAX_ATTEMPTS = 3%N
  /\ ((Webview.initAttempts p < Webview.MAX_ATTEMPTS)%N ->
        Webview.timers p'
          = Webview.timers p ++ [(Webview.TInitModel, 2000%N)]
        /\ Webview.retryTimers p' = [(Webview.TInitModel, 2000%N)]
        /\ Webview.log p'
            = Webview.log p
                ++ [Webview.ConsoleError message;
                    Webview.SetTimeout Webview.TInitModel 2000]
        /\ Webview.loading p' = 0%nat
        /\ Webview.btnDisabled p' = true
        /\ exists p'',
             Webview.step p' (Webview.Timeout (length (Webview.timers p)))
               = Some p''
             /\ Webview.initAttempts p''
                 = (Webview.initAttempts p + 1)%N
             /\ Webview.loading p'' = 1%nat
             /\ Webview.retryTimers p'' = []
             /\ Webview.log p'' = Webview.log p' ++ [Webview.CallPipeline])
  /\ (Webview.initAttempts p = Webview.MAX_ATTEMPTS ->
        Webview.timers p' = Webview.timers p
        /\ Webview.log p' = Webview.log p ++ [Webview.ConsoleError message]
        /\ Webview.retryOffered p'
        /\ (forall evs q,
              Webview.noClick evs -> Webview.run p' evs = Some q ->
              Webview.retryOffered q
              /\ Webview.pipelineCalls q = Webview.pipelineCalls p')
        /\ (forall q,
              Webview.retryOffered q ->
              exists q',
                Webview.step q Webview.Click = Some q'
                /\ Webview.initAttempts q' = 1%N
                /\ Webview.loading q' = 1%nat
                /\ Webview.pipelineCalls q' = S (Webview.pipelineCalls q)
                /\ Webview.btnText q' = lit "Analyze Errors")).
Proof.
  intros Hreach Hstep.
  destruct (reachable_invariant_page p Hreach)
    as [Hsingle Hbound Hbusy Htimer Hretry Han].
  destruct p as [ini att gen st res dis txt onc tms ld an lg].
  unfold Webview.underway, Webview.retryTimers in *. simpl in *.
  destruct ld as [|ld]; [discriminate|]. injection Hstep as <-.
  assert (ld = 0%nat) by lia. subst ld.
  assert (Hnone : filter Webview.isRetryTimer tms = [])
    by (apply filter_length_0; lia).
  destruct Hbusy as [Hini [Hdis [Honc Hatt]]]; [lia|]. subst.
  split; [lia|]. split; [reflexivity|].
  unfold Webview.initModel_catch. simpl. split.
  - intros Hlt. apply N.ltb_lt in Hlt. rewrite Hlt. simpl.
    rewrite filter_app, Hnone. simpl. repeat split.
    + rewrite <- app_assoc. reflexivity.
    + rewrite nth_error_last, remove_nth_last. simpl.
      eexists. split; [reflexivity|]. simpl. rewrite Hnone.
      repeat split.
  - intros ->. simpl.
    assert (Hoffer : Webview.retryOffered
              {| Webview.isInitialized := false;
                 Webview.initAttempts := Webview.MAX_ATTEMPTS;
                 Webview.generator := gen;
                 Webview.status :=
                   Webview.cross ++ lit " Failed to load model after "
                     ++ Number_toString Webview.MAX_ATTEMPTS
                     ++ lit " attempts.<br>Error: " ++ message
                     ++ lit "<br><br>Try refreshing the panel or checking your internet connection.";
                 Webview.result := res;
                 Webview.btnDisabled := false;
                 Webview.btnText := lit "Retry Loading Model";
                 Webview.btnOnclick := Webview.OnRetry;
                 Webview.timers := tms;
                 Webview.loading := 0;
                 Webview.analyzing := an;
                 Webview.log := lg ++ [Webview.ConsoleError message] |}).
    { constructor; unfold Webview.underway, Webview.retryTimers; simpl;
        auto.
      - rewrite Hnone. reflexivity.
      - destruct an; [reflexivity|]. discriminate Han. discriminate. }
    split; [reflexivity|]. split; [reflexivity|].
    split; [exact Hoffer|]. split.
    + intros evs q Hno Hrun.
      destruct (retryOffered_run evs _ q Hoffer Hno Hrun) as [H1 [H2 _]].
      auto.
    + intros q Hq. destruct (retryOffered_click q Hq)
        as [q' [H1 [H2 [H3 [H4 [H5 _]]]]]]. eauto 10.
Qed.

Lemma counted_step p ev q :
  Webview.pipelineCalls p = N.to_nat (Webview.initAttempts p) ->
  Webview.isClick ev = false -> Webview.step p ev = Some q ->
  Webview.pipelineCalls q = N.to_nat (Webview.initAttempts q).
Proof.
  destruct p as [ini att gen st res dis txt onc tms ld an lg].
  unfold Webview.pipelineCalls. simpl. intros Hc Hev.
  destruct ev as [g|g|message|i| |m|i explanation|i message]; simpl;
    try discriminate.
  - destruct ld; [discriminate|]. intros H. injection H as <-.
    destruct g; exact Hc.
  - destruct ld; [discriminate|]. intros H. injection H as <-. simpl.
    rewrite filter_app. simpl. rewrite app_nil_r. exact Hc.
  - destruct ld; [discriminate|]. intros H. injection H as <-.
    unfold Webview.initModel_catch. simpl.
    destruct (att <? Webview.MAX_ATTEMPTS)%N; simpl;
      rewrite !filter_app; simpl; rewrite !app_nil_r; exact Hc.
  - destruct (nth_error tms i) as [[t d]|]; [|discriminate].
    intros H. injection H as <-. destruct t; simpl; [|exact Hc].
    unfold Webview.initModel. simpl. destruct ini; simpl; [exact Hc|].
    rewrite filter_app, length_app. simpl. lia.
  - intros H. injection H as <-. destruct m; simpl; try exact Hc.
    destruct ini; simpl; [|exact Hc].
    rewrite filter_app. simpl. rewrite app_nil_r. exact Hc.
  - destruct (nth_error an i); [|discriminate].
    intros H. injection H as <-. exact Hc.
  - destruct (nth_error an i); [|discriminate].
    intros H. injection H as <-. exact Hc.
Qed.

Lemma counted_run evs : forall p q,
  Webview.pipelineCalls p = N.to_nat (Webview.initAttempts p) ->
  Webview.noClick evs -> Webview.run p evs = Some q ->
  Webview.pipelineCalls q = N.to_nat (Webview.initAttempts q).
Proof.
  unfold Webview.noClick.
  induction evs as [|ev evs IH]; simpl; intros p q Hc Hev H.
  - injection H as <-. exact Hc.
  - destruct (Webview.step p ev) as [p'|] eqn:Hstep; [|discriminate].
    apply andb_prop in Hev. destruct Hev as [Hev Hevs].
    apply negb_true_iff in Hev.
    exact (IH _ _ (counted_step _ _ _ Hc Hev Hstep) Hevs H).
Qed.

(** Without a click, [pipeline] is called three times at most, however the
    events fall. *)
Lemma attempts_without_click evs q :
  Webview.run Webview.boot evs = Some q -> Webview.noClick evs ->
  (Webview.pipelineCalls q <= 3)%nat.
Proof.
  intros Hrun Hev.
  assert (Hc : Webview.pipelineCalls q = N.to_nat (Webview.initAttempts q))
    by (apply (counted_run evs Webview.boot q); [reflexivity|exact Hev|exact Hrun]).
  pose proof (Webview.inv_bound q
                (reachable_invariant_page q
                   (run_reachable _ _ _ Webview.reach_boot Hrun))) as Hb.
  unfold Webview.MAX_ATTEMPTS in Hb. lia.
Qed.

(** Three loads that fail in a row, with nothing else happening. *)
Example three_failed_attempts e1 e2 e3 :
  match Webview.run Webview.boot
          [Webview.PipelineRejected e1; Webview.Timeout 0;
           Webview.PipelineRejected e2; Webview.Timeout 0;
           Webview.PipelineRejected e3] with
  | None => False
  | Some p =>
      Webview.log p
      = [Webview.CallPipeline;
         Webview.ConsoleError e1;
         Webview.SetTimeout Webview.TInitModel 2000;
         Webview.CallPipeline;
         Webview.ConsoleError e2;
         Webview.SetTimeout Webview.TInitModel 2000;
         Webview.CallPipeline;
         Webview.ConsoleError e3]
      /\ Webview.timers p = []
      /\ Webview.loading p = 0%nat
      /\ Webview.initAttempts p = 3%N
      /\ Webview.btnText p = lit "Retry Loading Model"
      /\ Webview.btnDisabled p = false
      /\ Webview.btnOnclick p = Webview.OnRetry
  end.
Proof. vm_compute. repeat split. Qed.

Example load_succeeds_on_second_attempt e1 :
  match Webview.run Webview.boot
          [Webview.PipelineRejected e1; Webview.Timeout 0;
           Webview.PipelineFulfilled 7] with
  | None => False
  | Some p =>
      Webview.log p
      = [Webview.CallPipeline;
         Webview.ConsoleError e1;
         Webview.SetTimeout Webview.TInitModel 2000;
         Webview.CallPipeline;
         Webview.SetTimeout Webview.TClearStatus 3000]
      /\ Webview.isInitialized p = true
      /\ Webview.btnDisabled p = false
      /\ Webview.btnText p = lit "Analyze Errors"
  end.
Proof. vm_compute. repeat split. Qed.

Lemma initModel_retry_policy_witness :
  exists p p',
    Webview.run Webview.boot Webview.twoFailures = Some p
    /\ Webview.step p (Webview.PipelineRejected Webview.fetchFailed)
       = Some p'
    /\ Webview.retryOffered p'.
Proof.
  destruct (Webview.run Webview.boot Webview.twoFailures) as [p|] eqn:Hrun;
    [|discriminate Hrun].
  destruct (Webview.step p (Webview.PipelineRejected Webview.fetchFailed))
    as [p'|] eqn:Hstep;
    [|vm_compute in Hrun; injection Hrun as <-; discriminate Hstep].
  exists p, p'. split; [reflexivity|]. split; [exact Hstep|].
  destruct (initModel_retry_policy p Webview.fetchFailed p'
              (run_reachable _ _ _ Webview.reach_boot Hrun) Hstep)
    as [_ [_ [_ H]]].
  apply H. vm_compute in Hrun. injection Hrun as <-. reflexivity.
Defined.

(** * Further properties *)

(** ** The provider and its views *)

Lemma resolvedIn_app a : forall b v,
  Host.resolvedIn (a ++ b) v = Host.resolvedIn b (Host.resolvedIn a v).
Proof.
  induction a as [|e a IH]; intros b v; [reflexivity|].
  destruct e; simpl; apply IH.
Qed.

Lemma wellAddressed_app a : forall b v,
  Host.wellAddressed (a ++ b) v
  <-> Host.wellAddressed a v /\ Host.wellAddressed b (Host.resolvedIn a v).
Proof.
  induction a as [|e a IH]; intros b v; simpl; [tauto|].
  destruct e; simpl; rewrite IH; tauto.
Qed.

Lemma resolvedIn_In out : forall v w,
  Host.resolvedIn out v = Some w ->
  v = Some w \/ In (Host.OnDidReceiveMessage w) out.
Proof.
  induction out as [|e out IH]; intros v w H; simpl in *; [auto|].
  destruct e; apply IH in H;
    try (destruct H as [H|H]; [left; exact H|right; right; exact H]).
  destruct H as [H|H]; [|right; right; exact H].
  injection H as ->. right. left. reflexivity.
Qed.

Lemma posts_only out w v :
  (forall e, In e out -> exists m, e = Host.PostMessage w m) ->
  Host.resolvedIn out v = v
  /\ (v = Some w -> Host.wellAddressed out v).
Proof.
  induction out as [|e out IH]; intros H; simpl; [auto|].
  destruct (H e (or_introl eq_refl)) as [m ->].
  destruct IH as [IH1 IH2]; [intros e He; apply H; right; exact He|].
  simpl. split; [exact IH1|]. intros Hv. split; [|auto]. exact Hv.
Qed.

Section Views.
Context {path : PathModule}.

Lemma resolveWebviewView_emits w s :
  Host.emitted (Host.resolveWebviewView w) s
  = [Host.SetOptions w true [Host._extensionUri s]; Host.SetHtml w;
     Host.OnDidReceiveMessage w].
Proof. reflexivity. Qed.

Lemma onDidReceiveMessage_posts env c s :
  exists w,
    (forall e, In e (Host.emitted (Host.onDidReceiveMessage env c) s) ->
       exists m, e = Host.PostMessage w m)
    /\ (Host.emitted (Host.onDidReceiveMessage env c) s <> [] ->
        Host._view s = Some w).
Proof.
  destruct (Host.emitted (Host.onDidReceiveMessage env c) s) as [|e out]
    eqn:Hout.
  - exists 0%nat. split; [intros e []|congruence].
  - destruct (onDidReceiveMessage_emits env c s e) as [w [m [Hv ->]]];
      [rewrite Hout; left; reflexivity|].
    exists w. split; [|auto]. intros e' He'.
    destruct (onDidReceiveMessage_emits env c s e') as [w' [m' [Hv' ->]]];
      [rewrite Hout; exact He'|].
    exists m'. congruence.
Qed.

(** The stored view is the one resolved last, and each message was posted
    to the view that was the stored one at that time. *)
Lemma reachable_addressing W :
  Host.reachable W ->
  Host._view (Host.ext W) = Host.lastResolved (Host.trace W)
  /\ Host.wellAddressed (Host.trace W) None.
Proof.
  unfold Host.lastResolved.
  induction 1 as [u|W ev W' HW [IHv IHa] Hstep].
  - simpl. auto.
  - destruct Hstep as [W w|W w env c Hl].
    + rewrite exec_ext, exec_trace, resolveWebviewView_emits.
      rewrite resolvedIn_app, wellAddressed_app. simpl. auto.
    + rewrite exec_ext, exec_trace, onDidReceiveMessage_frame.
      rewrite resolvedIn_app, wellAddressed_app.
      destruct (onDidReceiveMessage_posts env c (Host.ext W))
        as [v [Hposts Hview]].
      destruct (posts_only _ v (Host.resolvedIn (Host.trace W) None) Hposts)
        as [Hres Hwell].
      rewrite Hres. split; [exact IHv|]. split; [exact IHa|].
      destruct (Host.emitted (Host.onDidReceiveMessage env c) (Host.ext W))
        eqn:Hout; [exact I|].
      apply Hwell. rewrite <- IHv. apply Hview. discriminate.
Qed.

(** X1: In every run of the extension a message is posted to the view that
    was resolved last before the message was posted, also when the message
    answers a webview resolved earlier; that view has a listener. *)
Theorem posts_go_to_last_resolved_view W before w m behind :
  Host.reachable W ->
  Host.trace W = before ++ Host.PostMessage w m :: behind ->
  Host.lastResolved before = Some w /\ Host.listening W w.
Proof.
  intros HW Htrace. destruct (reachable_addressing W HW) as [_ Ha].
  rewrite Htrace in Ha. apply wellAddressed_app in Ha.
  destruct Ha as [_ [Hw _]].
  split; [exact Hw|].
  apply resolvedIn_In in Hw. destruct Hw as [Hw|Hw]; [discriminate|].
  unfold Host.listening. rewrite Htrace. apply in_or_app. left. exact Hw.
Qed.

(** X2: In every run of the extension [panel] stays undefined; every
    webview is configured with scripts enabled and with the extension's
    own URI as its only local resource root; a view with a listener has had
    its options and its HTML set; and [_view] is defined exactly when some
    view has been resolved. *)
Theorem webview_configuration W :
  Host.reachable W ->
  Host.panel (Host.ext W) = None
  /\ (forall w scripts roots,
        In (Host.SetOptions w scripts roots) (Host.trace W) ->
        scripts = true /\ roots = [Host._extensionUri (Host.ext W)])
  /\ (forall w, Host.listening W w ->
        In (Host.SetOptions w true [Host._extensionUri (Host.ext W)])
           (Host.trace W)
        /\ In (Host.SetHtml w) (Host.trace W))
  /\ ((exists v, Host._view (Host.ext W) = Some v)
      <-> exists w, Host.listening W w).
Proof.
  intros HW. split; [apply (reachable_invariant W HW)|].
  split; [|split].
  - induction HW as [u|W ev W' HW IH Hstep].
    + intros w b r [H|[H|[]]]; discriminate.
    + destruct Hstep as [W w|W w env c Hl]; intros w' b r;
        rewrite exec_ext, exec_trace, in_app_iff.
      * rewrite resolveWebviewView_emits. simpl.
        intros [H|[H|[H|[H|[]]]]]; try discriminate.
        -- apply (IH _ _ _ H).
        -- injection H as _ <- <-. auto.
      * rewrite onDidReceiveMessage_frame. intros [H|H]; [apply (IH _ _ _ H)|].
        apply onDidReceiveMessage_emits in H.
        destruct H as [v [m [_ H]]]. discriminate.
  - induction HW as [u|W ev W' HW IH Hstep].
    + intros w [H|[H|[]]]; discriminate.
    + destruct Hstep as [W w|W w env c Hl]; intros w'; unfold Host.listening;
        rewrite exec_ext, exec_trace, !in_app_iff.
      * rewrite resolveWebviewView_emits. simpl.
        intros [H|[H|[H|[H|[]]]]]; try discriminate.
        -- destruct (IH _ H). auto.
        -- injection H as <-. auto 10.
      * rewrite onDidReceiveMessage_frame. intros [H|H].
        -- destruct (IH _ H). auto.
        -- apply onDidReceiveMessage_emits in H.
           destruct H as [v [m [_ H]]]. discriminate.
  - split.
    + intros [v Hv]. destruct (reachable_addressing W HW) as [H _].
      rewrite Hv in H. apply eq_sym, resolvedIn_In in H.
      destruct H as [H|H]; [discriminate|]. exists v. exact H.
    + intros [w Hw]. exact (reachable_view W w HW Hw).
Qed.

End Views.

Lemma answeredAgain_reachable : Host.reachable Host.answeredAgain.
Proof.
  eapply Host.reach_step;
    [|apply (Host.step_receive _ 4%nat Host.noEditor_env
               (lit "analyzeErrors"))].
  - eapply Host.reach_step; [|apply Host.step_resolve].
    eapply Host.reach_step;
      [apply resolved_reachable
      |apply (Host.step_receive _ 4%nat Host.main_env (lit "analyzeErrors"))].
    apply resolved_listening.
  - unfold Host.listening. vm_compute. auto 10.
Qed.

Lemma posts_go_to_last_resolved_view_witness :
  Host.lastResolved (firstn 9 (Host.trace Host.answeredAgain)) = Some 5%nat
  /\ Host.listening Host.answeredAgain 5.
Proof.
  apply (posts_go_to_last_resolved_view Host.answeredAgain
           (firstn 9 (Host.trace Host.answeredAgain)) 5%nat
           (Host.showResult Host.noActiveFile) []).
  - exact answeredAgain_reachable.
  - vm_compute. reflexivity.
Defined.

Lemma webview_configuration_witness :
  Host.panel (Host.ext Host.answeredAgain) = None
  /\ In (Host.SetHtml 5) (Host.trace Host.answeredAgain).
Proof.
  destruct (webview_configuration Host.answeredAgain answeredAgain_reachable)
    as [Hp [_ [Hl _]]].
  split; [exact Hp|]. apply (Hl 5%nat).
  unfold Host.listening. vm_compute. auto 10.
Defined.

(** ** Failing and repeating analyses *)

Lemma Exists_filter {A} (f : A -> bool) (P : A -> Prop) (l : list A) :
  Exists P (filter f l) <-> Exists (fun x => f x = true /\ P x) l.
Proof.
  rewrite !Exists_exists. split.
  - intros [x [Hin HP]]. apply filter_In in Hin. exists x. tauto.
  - intros [x [Hin [Hf HP]]]. exists x. split; [|exact HP].
    apply filter_In. auto.
Qed.

Section Failing.
Context {path : PathModule}.

Lemma forEach_inl_iff document errors : forall idx acc,
  (exists e, Host.forEach document errors idx acc = inl e)
  <-> Exists (fun d => ~ Host.startsInDocument document d) errors.
Proof.
  induction errors as [|err rest IH]; intros idx acc; simpl.
  - split; [intros [e H]; discriminate|intros H; inversion H].
  - destruct (Host.appendError document acc err idx) as [e|acc'] eqn:E.
    + split; [|eauto]. intros _. apply Exists_cons_hd.
      apply appendError_inl in E. tauto.
    + rewrite IH. split; [apply Exists_cons_tl|].
      intros H. inversion H as [? ? Hbad|? ? Htl]; subst; [|exact Htl].
      apply appendError_inr in E. destruct E as [ln [Hln _]].
      contradiction Hbad. apply lineAt_inside. eauto.
Qed.

(** X3: The analyze operation throws exactly when a view is stored, there
    is an active editor and some diagnostic of severity [Error] of its
    document starts on a line the document does not have; what it throws is
    the error of [lineAt], never a [TypeError] on the view, and in that
    case nothing is posted and no variable changes. Diagnostics of other
    severities never make it throw. *)
Theorem analyze_throws_iff env s :
  (forall e,
     Host.outcome (Host.analyze env) s = inl e
     <-> e = Host.IllegalValueForLine
         /\ exists w editor,
              Host._view s = Some w
              /\ activeTextEditor env = Some editor
              /\ Exists (fun d => severity d = Error
                                  /\ ~ Host.startsInDocument
                                         (document editor) d)
                   (getDiagnostics env (uri (document editor))))
  /\ (forall e,
        Host.outcome (Host.analyze env) s = inl e ->
        Host.emitted (Host.analyze env) s = []
        /\ Host.after (Host.analyze env) s = s).
Proof.
  rewrite analyze_unfold. unfold Host.outcome, Host.emitted, Host.after.
  rewrite analyzeCurrentFile_cases.
  destruct (Host._view s) as [w|].
  2:{ split; [|discriminate]. intros e. split; [discriminate|].
      intros [_ [w [editor [H _]]]]. discriminate. }
  destruct (activeTextEditor env) as [editor|]; simpl.
  2:{ split; [|discriminate]. intros e. split; [discriminate|].
      intros [_ [w' [editor [_ [H _]]]]]. discriminate. }
  assert (Hbad :
    (exists e, Host.buildErrorContext (document editor)
                 (filter Host.isError
                    (getDiagnostics env (uri (document editor)))) = inl e)
    <-> Exists (fun d => severity d = Error
                         /\ ~ Host.startsInDocument (document editor) d)
          (getDiagnostics env (uri (document editor)))).
  { unfold Host.buildErrorContext. rewrite forEach_inl_iff, Exists_filter.
    rewrite !Exists_exists.
    split; intros [x [Hin [H1 H2]]]; exists x; (split; [exact Hin|]);
      (split; [apply isError_severity, H1|exact H2]). }
  destruct (filter Host.isError _) as [|d errors] eqn:Hf; simpl.
  - split; [|discriminate]. intros e. split; [discriminate|].
    intros [_ [w' [editor' [_ [He Hex]]]]]. injection He as <-.
    apply Hbad in Hex. destruct Hex as [e' He']. discriminate.
  - destruct (Host.buildErrorContext (document editor) (d :: errors))
      as [e0|ctx] eqn:Hb; simpl.
    + split; [|auto]. intros e. split.
      * intros H. injection H as <-. split.
        -- unfold Host.buildErrorContext in Hb. eapply forEach_inl, Hb.
        -- exists w, editor. repeat split. apply Hbad. eauto.
      * intros [-> _]. f_equal.
        unfold Host.buildErrorContext in Hb. eapply forEach_inl, Hb.
    + split; [|discriminate]. intros e. split; [discriminate|].
      intros [_ [w' [editor' [_ [He Hex]]]]]. injection He as <-.
      apply Hbad in Hex. destruct Hex as [e' He']. discriminate.
Qed.

(** X4: The analysis keeps nothing between two calls: handling the command
    twice in a row, with the editor unchanged, leaves the variables as they
    were and emits what one handling emits, twice. *)
Theorem analyze_twice W env :
  let W1 := fst (Host.exec (Host.analyze env) W) in
  let W2 := fst (Host.exec (Host.analyze env) W1) in
  Host.ext W2 = Host.ext W
  /\ Host.trace W2
     = Host.trace W ++ Host.emitted (Host.analyze env) (Host.ext W)
         ++ Host.emitted (Host.analyze env) (Host.ext W)
  /\ snd (Host.exec (Host.analyze env) W1)
     = snd (Host.exec (Host.analyze env) W).
Proof.
  intros W1 W2. subst W1 W2.
  pose proof (onDidReceiveMessage_frame env (lit "analyzeErrors")
                (Host.ext W)) as Hf.
  unfold Host.exec, Host.emitted, Host.after in *. fold (Host.analyze env) in Hf.
  destruct (Host.analyze env (Host.ext W)) as [[s out] r] eqn:E.
  simpl in *. subst s. rewrite E. simpl.
  rewrite <- app_assoc. repeat split.
Qed.

(** X5: The loop over the errors composes: the text for a list [a ++ b]
    is the text for [a] continued with [b], numbered on from where [a]
    ended; an error of [a] that makes [lineAt] throw stops everything. *)
Theorem forEach_app document a : forall b idx acc,
  Host.forEach document (a ++ b) idx acc
  = match Host.forEach document a idx acc with
    | inl e => inl e
    | inr acc' =>
        Host.forEach document b (idx + N.of_nat (length a)) acc'
    end.
Proof.
  induction a as [|err a IH]; intros b idx acc; simpl.
  - rewrite N.add_0_r. reflexivity.
  - destruct (Host.appendError document acc err idx) as [e|acc'];
      [reflexivity|].
    rewrite IH. destruct (Host.forEach document a (idx + 1) acc');
      [reflexivity|].
    f_equal. lia.
Qed.

End Failing.

Lemma trimStart_ws_app (l s : jsstring) :
  forallb isWhiteSpace l = true -> trimStart (l ++ s) = trimStart s.
Proof.
  induction l as [|c l IH]; simpl; [reflexivity|].
  intros H. apply andb_prop in H. destruct H as [Hc Hl].
  rewrite Hc. apply IH, Hl.
Qed.

Lemma trimStart_all_ws (r : jsstring) :
  forallb isWhiteSpace r = true -> trimStart r = [].
Proof.
  intros H. rewrite <- (app_nil_r r). rewrite trimStart_ws_app; auto.
Qed.

Lemma trimEnd_app_ws (s r : jsstring) :
  forallb isWhiteSpace r = true -> trimEnd (s ++ r) = trimEnd s.
Proof.
  intros H. unfold trimEnd. rewrite rev_app_distr, trimStart_ws_app;
    [reflexivity|apply forallb_rev, H].
Qed.

Lemma trim_surrounded (l s r : jsstring) :
  forallb isWhiteSpace l = true -> forallb isWhiteSpace r = true ->
  trim (l ++ s ++ r) = trim s.
Proof.
  intros Hl Hr. unfold trim. rewrite trimStart_ws_app by exact Hl.
  destruct (trimStart_split s) as [l0 [Hs Hl0]].
  rewrite Hs at 1. rewrite <- app_assoc, trimStart_ws_app by exact Hl0.
  destruct (trimStart s) as [|c t] eqn:Ht.
  - simpl. rewrite trimStart_all_ws by exact Hr. reflexivity.
  - simpl. rewrite (trimStart_head _ _ _ Ht).
    change (c :: t ++ r) with ((c :: t) ++ r).
    apply trimEnd_app_ws, Hr.
Qed.

(** X6: The block of an error does not depend on the white space around
    its source line: two documents whose lines at the error's start are
    the same text between different leading and trailing white space give
    the same block. *)
Theorem block_ignores_indentation {path : PathModule}
    document document' err idx acc ln ln' core l r l' r' :
  lineAt document (line (start (range err))) = Some ln ->
  lineAt document' (line (start (range err))) = Some ln' ->
  text ln = l ++ core ++ r -> text ln' = l' ++ core ++ r' ->
  forallb isWhiteSpace (l ++ r ++ l' ++ r') = true ->
  Host.appendError document' acc err idx
  = Host.appendError document acc err idx.
Proof.
  intros Hln Hln' Ht Ht' Hws.
  rewrite !forallb_app in Hws.
  apply andb_prop in Hws. destruct Hws as [Hl Hws].
  apply andb_prop in Hws. destruct Hws as [Hr Hws].
  apply andb_prop in Hws. destruct Hws as [Hl' Hr'].
  unfold Host.appendError. rewrite Hln, Hln', Ht, Ht'.
  rewrite !trim_surrounded by assumption. reflexivity.
Qed.

Lemma block_ignores_indentation_witness :
  Host.appendError Host.main_reformatted []
    (Host.mkDiagnostic 1 2 "Cannot find name 'foo'." Error) 0
  = Host.appendError Host.main_ts []
      (Host.mkDiagnostic 1 2 "Cannot find name 'foo'." Error) 0.
Proof.
  apply (block_ignores_indentation Host.main_ts Host.main_reformatted
           (Host.mkDiagnostic 1 2 "Cannot find name 'foo'." Error) 0 []
           {| lineNumber := 1; text := lit "   foo(  " |}
           {| lineNumber := 1; text := [9; 9]%N ++ lit "foo(" |}
           (lit "foo(") (lit "   ") (lit "  ") [9; 9]%N []);
    reflexivity.
Defined.

(** ** The page of the webview *)

Lemma boot_consistent : Webview.consistent Webview.boot.
Proof.
  constructor; vm_compute; try tauto; try discriminate.
  - split; [discriminate|]. intros H. contradiction H. reflexivity.
  - intros prompt [H|[]]. discriminate.
  - intros e [<-|[]]. exact I.
Qed.

Ltac in_cases :=
  match goal with
  | H : In _ (_ ++ _) |- _ => apply in_app_or in H; destruct H as [H|H]
  | H : In _ (_ :: _) |- _ => destruct H as [H|H]
  | H : In _ [] |- _ => destruct H
  end.

Ltac page_field :=
  unfold Webview.underway, Webview.retryTimers, Webview.analyzeErrors;
  simpl;
  try solve
    [ auto
    | discriminate
    | tauto
    | split; [discriminate|reflexivity]
    | split; [discriminate|intros _; reflexivity]
    | rewrite ?filter_app, ?length_app; simpl; intros; lia
    | intros; repeat in_cases; subst; simpl; eauto; try discriminate;
      try exact I; try reflexivity ].

Lemma step_consistent p ev p' :
  Webview.invariant p -> Webview.consistent p ->
  Webview.step p ev = Some p' -> Webview.consistent p'.
Proof.
  intros [Hsingle Hbound Hbusy Htimer Hretry Han]
    [Clabel Coffer Cenabled Cgen Ccalled Clog Ctimers].
  destruct p as [ini att gen st res dis txt onc tms ld an lg].
  unfold Webview.underway, Webview.retryTimers in *. simpl in *.
  destruct ev as [g|g|message|i| |m|i explanation|i message]; simpl.
  - destruct ld as [|ld]; [discriminate|]. intros H. injection H as <-.
    destruct g; constructor; page_field.
  - destruct ld as [|ld]; [discriminate|]. intros H. injection H as <-.
    constructor; page_field.
  - destruct ld as [|ld]; [discriminate|]. intros H. injection H as <-.
    assert (ld = 0%nat) by lia. subst ld.
    destruct Hbusy as [Hini [Hdis [Honc Hatt]]]; [lia|]. subst.
    unfold Webview.initModel_catch. simpl.
    destruct (att <? Webview.MAX_ATTEMPTS)%N; constructor; page_field.
  - destruct (nth_error tms i) as [[t d]|] eqn:Hi; [|discriminate].
    intros H. injection H as <-.
    assert (Hsub : forall x, In x (Webview.remove_nth i tms) -> In x tms)
      by (intros x; apply remove_nth_In).
    destruct t; simpl.
    + assert (Hin : In (Webview.TInitModel, d)
                      (filter Webview.isRetryTimer tms))
        by (apply filter_In; split; [eapply nth_error_In, Hi|reflexivity]).
      pose proof (remove_nth_filter_true Webview.isRetryTimer tms i _ Hi
                    eq_refl) as Hlen.
      destruct Hbusy as [Hini [Hdis [Honc Hatt1]]]; [lia|]. subst.
      unfold Webview.initModel. simpl. constructor; page_field.
    + rewrite <- (remove_nth_filter_false Webview.isRetryTimer tms i _ Hi
                    eq_refl) in *.
      constructor; page_field.
  - destruct dis; [discriminate|]. intros H. injection H as <-.
    unfold Webview.onclick. simpl. destruct onc; simpl.
    + constructor; page_field.
    + destruct Hretry as [Hini Hidle]; [reflexivity|]. subst.
      unfold Webview.initModel. simpl. constructor; page_field.
  - intros H. injection H as <-. destruct m as [text|errorContext|]; simpl.
    + constructor; page_field.
    + destruct ini; simpl; constructor; page_field.
      intros e He. apply in_app_or in He. destruct He as [He|[<-|[]]];
        [auto|].
      exists errorContext. reflexivity.
    + constructor; page_field.
  - destruct (nth_error an i) as [errorContext|] eqn:Hi; [|discriminate].
    intros H. injection H as <-. constructor; page_field.
  - destruct (nth_error an i) as [errorContext|] eqn:Hi; [|discriminate].
    intros H. injection H as <-. constructor; page_field.
Qed.

Lemma reachable_consistent p :
  Webview.reachable p -> Webview.invariant p /\ Webview.consistent p.
Proof.
  induction 1 as [|p ev p' _ [IHi IHc] Hstep].
  - split; [apply boot_invariant|apply boot_consistent].
  - split; [exact (step_invariant _ _ _ IHi Hstep)|].
    exact (step_consistent _ _ _ IHi IHc Hstep).
Qed.

(** X7: In every run of the page at most one attempt to load the model is
    under way (waiting for [pipeline] or for its retry timeout), the
    attempt counter never exceeds 3, and while an attempt is under way the
    model is not ready, the button is disabled and a click does nothing. *)
Theorem single_load_under_way p :
  Webview.reachable p ->
  (Webview.underway p <= 1)%nat
  /\ (Webview.initAttempts p <= 3)%N
  /\ (Webview.underway p = 1%nat ->
      Webview.isInitialized p = false
      /\ Webview.btnDisabled p = true
      /\ Webview.step p Webview.Click = None).
Proof.
  intros Hp. destruct (reachable_invariant_page p Hp)
    as [Hsingle Hbound Hbusy _ _ _].
  split; [exact Hsingle|]. split; [exact Hbound|].
  intros Hu. destruct (Hbusy Hu) as [Hini [Hdis _]].
  repeat split; auto. simpl. rewrite Hdis. reflexivity.
Qed.

Lemma single_load_under_way_witness :
  Webview.step Webview.boot Webview.Click = None.
Proof.
  apply (single_load_under_way Webview.boot Webview.reach_boot).
  reflexivity.
Defined.

Lemma bounded_step p ev q k :
  Webview.invariant p ->
  (Webview.pipelineCalls p <= N.to_nat (Webview.initAttempts p) + k)%nat ->
  Webview.step p ev = Some q ->
  (Webview.pipelineCalls q
   <= N.to_nat (Webview.initAttempts q) + k
      + (if Webview.isClick ev then 3 else 0))%nat.
Proof.
  intros [Hsingle Hbound Hbusy Htimer Hretry Han].
  destruct p as [ini att gen st res dis txt onc tms ld an lg].
  unfold Webview.pipelineCalls, Webview.MAX_ATTEMPTS in *. simpl in *.
  intros Hc.
  destruct ev as [g|g|message|i| |m|i explanation|i message]; simpl.
  - destruct ld; [discriminate|]. intros H. injection H as <-.
    destruct g; simpl; lia.
  - destruct ld; [discriminate|]. intros H. injection H as <-. simpl.
    rewrite filter_app. simpl. rewrite app_nil_r. lia.
  - destruct ld; [discriminate|]. intros H. injection H as <-.
    unfold Webview.initModel_catch. simpl.
    destruct (att <? Webview.MAX_ATTEMPTS)%N; simpl;
      rewrite !filter_app; simpl; rewrite !app_nil_r; lia.
  - destruct (nth_error tms i) as [[t d]|]; [|discriminate].
    intros H. injection H as <-. destruct t; simpl; [|lia].
    unfold Webview.initModel. simpl. destruct ini; simpl; [lia|].
    rewrite filter_app, length_app. simpl. lia.
  - destruct dis; [discriminate|]. intros H. injection H as <-.
    unfold Webview.onclick. simpl. destruct onc; simpl.
    + rewrite filter_app. simpl. rewrite app_nil_r. lia.
    + unfold Webview.initModel. simpl. destruct ini; simpl; [lia|].
      rewrite filter_app, length_app. simpl. lia.
  - intros H. injection H as <-. destruct m; simpl; try lia.
    destruct ini; simpl; [|lia].
    rewrite filter_app. simpl. rewrite app_nil_r. lia.
  - destruct (nth_error an i); [|discriminate].
    intros H. injection H as <-. simpl. lia.
  - destruct (nth_error an i); [|discriminate].
    intros H. injection H as <-. simpl. lia.
Qed.

Lemma bounded_run evs : forall p q k,
  Webview.invariant p ->
  (Webview.pipelineCalls p <= N.to_nat (Webview.initAttempts p) + k)%nat ->
  Webview.run p evs = Some q ->
  Webview.invariant q
  /\ (Webview.pipelineCalls q
      <= N.to_nat (Webview.initAttempts q) + k + 3 * Webview.clicks evs)%nat.
Proof.
  unfold Webview.clicks.
  induction evs as [|ev evs IH]; simpl; intros p q k Hinv Hc H.
  - injection H as <-. split; [exact Hinv|lia].
  - destruct (Webview.step p ev) as [p'|] eqn:Hstep; [|discriminate].
    pose proof (bounded_step _ _ _ _ Hinv Hc Hstep) as Hc'.
    assert (Hc'' : (Webview.pipelineCalls p'
                    <= N.to_nat (Webview.initAttempts p')
                       + (k + (if Webview.isClick ev then 3 else 0)))%nat)
      by lia.
    destruct (IH _ _ _ (step_invariant _ _ _ Hinv Hstep) Hc'' H)
      as [Hq Hb].
    split; [exact Hq|]. destruct (Webview.isClick ev); simpl in *; lia.
Qed.

(** X8: However the events fall, [pipeline] is called at most three times
    plus three times for each click: the automatic retries stop after the
    third attempt, and only a click on the retry button starts another
    round of three. *)
Theorem pipeline_calls_bounded evs q :
  Webview.run Webview.boot evs = Some q ->
  (Webview.pipelineCalls q <= 3 + 3 * Webview.clicks evs)%nat.
Proof.
  intros Hrun.
  destruct (bounded_run evs Webview.boot q 0 boot_invariant) as [Hq Hb];
    [vm_compute; lia|exact Hrun|].
  pose proof (Webview.inv_bound q Hq) as Hbound.
  unfold Webview.MAX_ATTEMPTS in Hbound. lia.
Qed.

Lemma pipeline_calls_bounded_witness :
  exists q,
    Webview.run Webview.boot
      (Webview.twoFailures
         ++ [Webview.PipelineRejected Webview.fetchFailed; Webview.Click])
    = Some q
    /\ (Webview.pipelineCalls q <= 6)%nat.
Proof.
  destruct (Webview.run Webview.boot
              (Webview.twoFailures
                 ++ [Webview.PipelineRejected Webview.fetchFailed;
                     Webview.Click])) as [q|] eqn:Hrun;
    [|discriminate Hrun].
  exists q. split; [reflexivity|].
  exact (pipeline_calls_bounded _ q Hrun).
Defined.

Lemma initialized_step p ev q :
  Webview.isInitialized p = true -> Webview.step p ev = Some q ->
  Webview.isInitialized q = true
  /\ Webview.pipelineCalls q = Webview.pipelineCalls p.
Proof.
  destruct p as [ini att gen st res dis txt onc tms ld an lg].
  unfold Webview.pipelineCalls. simpl. intros ->.
  destruct ev as [g|g|message|i| |m|i explanation|i message]; simpl.
  - destruct ld; [discriminate|]. intros H. injection H as <-.
    destruct g; auto.
  - destruct ld; [discriminate|]. intros H. injection H as <-. simpl.
    rewrite filter_app. simpl. rewrite app_nil_r. auto.
  - destruct ld; [discriminate|]. intros H. injection H as <-.
    unfold Webview.initModel_catch. simpl.
    destruct (att <? Webview.MAX_ATTEMPTS)%N; simpl;
      rewrite !filter_app; simpl; rewrite !app_nil_r; auto.
  - destruct (nth_error tms i) as [[t d]|]; [|discriminate].
    intros H. injection H as <-. destruct t; simpl; auto.
  - destruct dis; [discriminate|]. intros H. injection H as <-.
    unfold Webview.onclick. simpl. destruct onc; simpl; [|auto].
    rewrite filter_app. simpl. rewrite app_nil_r. auto.
  - intros H. injection H as <-. destruct m; simpl; auto.
    rewrite filter_app. simpl. rewrite app_nil_r. auto.
  - destruct (nth_error an i); [|discriminate].
    intros H. injection H as <-. auto.
  - destruct (nth_error an i); [|discriminate].
    intros H. injection H as <-. auto.
Qed.

(** X9: Once the model is loaded it stays loaded: whatever events follow
    (timeouts still pending, clicks, late results of [pipeline]),
    [isInitialized] remains true and [pipeline] is not called again. *)
Theorem initialized_is_final evs : forall p q,
  Webview.isInitialized p = true -> Webview.run p evs = Some q ->
  Webview.isInitialized q = true
  /\ Webview.pipelineCalls q = Webview.pipelineCalls p.
Proof.
  induction evs as [|ev evs IH]; simpl; intros p q Hp H.
  - injection H as <-. auto.
  - destruct (Webview.step p ev) as [p'|] eqn:Hstep; [|discriminate].
    destruct (initialized_step _ _ _ Hp Hstep) as [Hp' Hc].
    destruct (IH _ _ Hp' H) as [Hq Hc']. split; [exact Hq|congruence].
Qed.

Lemma initialized_is_final_witness :
  exists p q,
    Webview.ready = Some p
    /\ Webview.run p
         [Webview.Timeout 0; Webview.Click;
          Webview.Message (Webview.AnalyzeWithAI [])] = Some q
    /\ Webview.isInitialized q = true.
Proof.
  destruct Webview.ready as [p|] eqn:Hp; [|discriminate Hp].
  destruct (Webview.run p
              [Webview.Timeout 0; Webview.Click;
               Webview.Message (Webview.AnalyzeWithAI [])]) as [q|] eqn:Hrun;
    [|vm_compute in Hp; injection Hp as <-; discriminate Hrun].
  exists p, q. split; [reflexivity|]. split; [exact Hrun|].
  refine (proj1 (initialized_is_final _ p q _ Hrun)).
  vm_compute in Hp. injection Hp as <-. reflexivity.
Defined.

(** X10: When [pipeline] fulfils in a run of the page, the model is ready:
    [isInitialized] is set, the generator is stored, the button is enabled
    with its "Analyze Errors" handler and label, the status reads
    "Model ready!" behind a check mark, nothing is under way, and the one
    timeout set (3000 ms) clears the status when it fires. *)
Theorem load_success p g p' :
  Webview.reachable p ->
  Webview.step p (Webview.PipelineFulfilled g) = Some p' ->
  Webview.isInitialized p' = true
  /\ Webview.generator p' = Some g
  /\ Webview.btnDisabled p' = false
  /\ Webview.btnOnclick p' = Webview.OnAnalyzeErrors
  /\ Webview.btnText p' = lit "Analyze Errors"
  /\ Webview.status p' = Webview.check ++ lit " Model ready!"
  /\ Webview.timers p'
     = Webview.timers p ++ [(Webview.TClearStatus, 3000%N)]
  /\ Webview.underway p' = 0%nat
  /\ Webview.initAttempts p' = Webview.initAttempts p
  /\ exists p'',
       Webview.step p' (Webview.Timeout (length (Webview.timers p)))
         = Some p''
       /\ Webview.status p'' = []
       /\ Webview.timers p'' = Webview.timers p
       /\ Webview.isInitialized p'' = true.
Proof.
  intros Hp Hstep.
  destruct (reachable_consistent p Hp)
    as [[Hsingle Hbound Hbusy Htimer Hretry Han]
        [Clabel Coffer Cenabled Cgen Ccalled Clog Ctimers]].
  destruct p as [ini att gen st res dis txt onc tms ld an lg].
  unfold Webview.underway, Webview.retryTimers in *. simpl in *.
  destruct ld as [|ld]; [discriminate|]. injection Hstep as <-.
  assert (ld = 0%nat) by lia. subst ld.
  assert (Hnone : filter Webview.isRetryTimer tms = [])
    by (apply filter_length_0; lia).
  destruct Hbusy as [Hini [Hdis [Honc Hatt]]]; [lia|]. subst.
  simpl. rewrite filter_app, Hnone, nth_error_last, remove_nth_last.
  simpl. repeat split. eexists. repeat split.
Qed.

Lemma load_success_witness :
  exists p', Webview.ready = Some p' /\ Webview.isInitialized p' = true.
Proof.
  destruct Webview.ready as [p'|] eqn:Hp; [|discriminate Hp].
  exists p'. split; [reflexivity|].
  apply (load_success Webview.boot 7%nat p' Webview.reach_boot Hp).
Defined.

(** X11: In every run of the page the button's label matches its handler.
    While it reads "Retry Loading Model" it is enabled, the model is not
    loaded and nothing is under way; while it reads "Analyze Errors" and is
    enabled, the model is ready, so the host is only ever asked to analyze
    by a page whose model is loaded. *)
Theorem button_matches_handler p :
  Webview.reachable p ->
  (Webview.btnOnclick p = Webview.OnRetry
   /\ Webview.btnText p = lit "Retry Loading Model"
   /\ Webview.btnDisabled p = false
   /\ Webview.isInitialized p = false
   /\ Webview.underway p = 0%nat)
  \/ (Webview.btnOnclick p = Webview.OnAnalyzeErrors
      /\ Webview.btnText p = lit "Analyze Errors"
      /\ (Webview.btnDisabled p = false -> Webview.isInitialized p = true)
      /\ forall p', Webview.step p Webview.Click = Some p' ->
           Webview.log p'
             = Webview.log p ++ [Webview.PostToHost (lit "analyzeErrors")]
           /\ Webview.isInitialized p' = true).
Proof.
  intros Hp.
  destruct (reachable_consistent p Hp)
    as [[Hsingle Hbound Hbusy Htimer Hretry Han]
        [Clabel Coffer Cenabled Cgen Ccalled Clog Ctimers]].
  destruct (Webview.btnOnclick p) eqn:Honc.
  - right. simpl in Clabel.
    assert (Hready : Webview.btnDisabled p = false ->
                     Webview.isInitialized p = true).
    { intros Hdis. destruct (Webview.isInitialized p) eqn:Hini;
        [reflexivity|].
      assert (Hu : Webview.underway p = 0%nat \/ Webview.underway p = 1%nat)
        by lia.
      destruct Hu as [Hu|Hu].
      - discriminate (Coffer eq_refl Hu).
      - destruct (Hbusy Hu) as [_ [Hd _]]. congruence. }
    repeat split; auto.
    + simpl in H. destruct (Webview.btnDisabled p); [discriminate|].
      injection H as <-. unfold Webview.onclick. rewrite Honc. reflexivity.
    + simpl in H. destruct (Webview.btnDisabled p) eqn:Hdis; [discriminate|].
      injection H as <-. unfold Webview.onclick. rewrite Honc. simpl.
      auto.
  - left. simpl in Clabel. destruct Hretry as [Hini Hu]; auto.
Qed.

Lemma button_matches_handler_witness :
  Webview.btnOnclick Webview.boot = Webview.OnAnalyzeErrors
  /\ Webview.btnText Webview.boot = lit "Analyze Errors".
Proof.
  destruct (button_matches_handler Webview.boot Webview.reach_boot)
    as [[H _]|[H1 [H2 _]]]; [discriminate H|].
  split; [exact H1|exact H2].
Defined.

(** X12: In every run of the page the generator is stored exactly when
    the model is loaded, it is only ever called on a loaded model, and an
    analysis can only be waiting on a loaded model. An [analyzeWithAI]
    message that reaches a page whose model is not loaded calls nothing
    and shows "Please wait for model to initialize...". *)
Theorem generator_only_when_ready p :
  Webview.reachable p ->
  (Webview.isInitialized p = true <-> Webview.generator p <> None)
  /\ (forall prompt, In (Webview.CallGenerator prompt) (Webview.log p) ->
        Webview.isInitialized p = true)
  /\ (Webview.analyzing p <> [] -> Webview.isInitialized p = true)
  /\ (Webview.isInitialized p = false ->
      forall errorContext,
      exists p',
        Webview.step p (Webview.Message (Webview.AnalyzeWithAI errorContext))
          = Some p'
        /\ Webview.result p' = lit "Please wait for model to initialize..."
        /\ Webview.log p' = Webview.log p
        /\ Webview.analyzing p' = Webview.analyzing p
        /\ Webview.btnDisabled p' = Webview.btnDisabled p).
Proof.
  intros Hp.
  destruct (reachable_consistent p Hp)
    as [[Hsingle Hbound Hbusy Htimer Hretry Han]
        [Clabel Coffer Cenabled Cgen Ccalled Clog Ctimers]].
  split; [exact Cgen|]. split; [exact Ccalled|]. split; [exact Han|].
  intros Hini errorContext. eexists. split; [reflexivity|].
  simpl. rewrite Hini. simpl. repeat split.
Qed.

Lemma generator_only_when_ready_witness :
  Webview.isInitialized Webview.boot = true
  <-> Webview.generator Webview.boot <> None.
Proof.
  apply (generator_only_when_ready Webview.boot Webview.reach_boot).
Defined.

(** X13: In every run of the page the only timeouts set are the retry
    (2000 ms) and the clearing of the status (3000 ms), the only command
    sent to the host is [analyzeErrors], and every prompt given to the
    generator is the fixed frame around the error context of a message. *)
Theorem page_effects_expected p :
  Webview.reachable p ->
  (forall t delay,
     In (Webview.SetTimeout t delay) (Webview.log p)
     \/ In (t, delay) (Webview.timers p) ->
     (t, delay) = (Webview.TInitModel, 2000%N)
     \/ (t, delay) = (Webview.TClearStatus, 3000%N))
  /\ (forall c, In (Webview.PostToHost c) (Webview.log p) ->
        c = lit "analyzeErrors")
  /\ (forall prompt, In (Webview.CallGenerator prompt) (Webview.log p) ->
        exists errorContext,
          prompt = lit "Fix this programming error:" ++ LF
                     ++ repeat 32%N 24 ++ lit "Error: " ++ errorContext ++ LF
                     ++ repeat 32%N 24 ++ lit "Solution:").
Proof.
  intros Hp.
  destruct (reachable_consistent p Hp) as [_ [_ _ _ _ _ Clog Ctimers]].
  split; [|split].
  - intros t delay [H|H]; [exact (Clog _ H)|exact (Ctimers _ H)].
  - intros c H. exact (Clog _ H).
  - intros prompt H. exact (Clog _ H).
Qed.

Lemma page_effects_expected_witness :
  exists p,
    Webview.ready = Some p
    /\ In (Webview.TClearStatus, 3000%N) (Webview.timers p)
    /\ ((Webview.TClearStatus, 3000%N) = (Webview.TInitModel, 2000%N)
        \/ (Webview.TClearStatus, 3000%N) = (Webview.TClearStatus, 3000%N)).
Proof.
  destruct Webview.ready as [p|] eqn:Hp; [|discriminate Hp].
  assert (Hr : Webview.reachable p)
    by (eapply Webview.reach_step; [apply Webview.reach_boot|exact Hp]).
  assert (Hin : In (Webview.TClearStatus, 3000%N) (Webview.timers p))
    by (vm_compute in Hp; injection Hp as <-; left; reflexivity).
  exists p. split; [reflexivity|]. split; [exact Hin|].
  apply (proj1 (page_effects_expected p Hr)). right. exact Hin.
Defined.

(** X14: On a loaded model an [analyzeWithAI] message disables the button,
    shows "Processing..." and calls the generator once; when the generator
    answers, the result shows the explanation followed by the original
    errors, and when it fails, the result shows the failure; either way
    the status is cleared and the button is enabled again. *)
Theorem analysis_result_displayed p errorContext :
  Webview.isInitialized p = true ->
  exists p1,
    Webview.step p (Webview.Message (Webview.AnalyzeWithAI errorContext))
      = Some p1
    /\ Webview.btnDisabled p1 = true
    /\ Webview.result p1 = lit "Processing..."
    /\ Webview.log p1
       = Webview.log p
           ++ [Webview.CallGenerator (Webview.promptFor errorContext)]
    /\ (forall explanation,
        exists p2,
          Webview.step p1
            (Webview.GeneratorFulfilled (length (Webview.analyzing p))
               explanation) = Some p2
          /\ Webview.result p2
             = Webview.books ++ lit " AI Analysis:" ++ LF ++ LF
                 ++ explanation ++ LF ++ LF ++ lit "---" ++ LF ++ LF
                 ++ lit "Original Errors:" ++ LF ++ errorContext
          /\ Webview.status p2 = []
          /\ Webview.btnDisabled p2 = false
          /\ Webview.analyzing p2 = Webview.analyzing p
          /\ Webview.log p2 = Webview.log p1)
    /\ (forall message,
        exists p2,
          Webview.step p1
            (Webview.GeneratorRejected (length (Webview.analyzing p))
               message) = Some p2
          /\ Webview.result p2 = lit "Error during analysis: " ++ message
          /\ Webview.status p2 = []
          /\ Webview.btnDisabled p2 = false
          /\ Webview.analyzing p2 = Webview.analyzing p
          /\ Webview.log p2 = Webview.log p1).
Proof.
  intros Hini. eexists. split; [reflexivity|].
  destruct p as [ini att gen st res dis txt onc tms ld an lg].
  simpl in *. subst ini. simpl. repeat split.
  - intros explanation. rewrite nth_error_last, remove_nth_last.
    eexists. repeat split.
  - intros message. rewrite nth_error_last, remove_nth_last.
    eexists. repeat split.
Qed.

Lemma analysis_result_displayed_witness :
  exists p p1,
    Webview.ready = Some p
    /\ Webview.step p
         (Webview.Message (Webview.AnalyzeWithAI Host.main_errorContext))
       = Some p1
    /\ Webview.result p1 = lit "Processing...".
Proof.
  destruct Webview.ready as [p|] eqn:Hp; [|discriminate Hp].
  destruct (analysis_result_displayed p Host.main_errorContext)
    as [p1 [H1 [_ [H2 _]]]].
  - vm_compute in Hp. injection Hp as <-. reflexivity.
  - exists p, p1. repeat split; assumption.
Defined.

(** X15: The timeout that clears "Model ready!" clears whatever the status
    shows when it fires: if an analysis has started in between, its
    "Analyzing..." status disappears while the analysis is still waiting
    and the button is still disabled. *)
Theorem status_cleared_during_analysis p i delay errorContext :
  Webview.isInitialized p = true ->
  nth_error (Webview.timers p) i = Some (Webview.TClearStatus, delay) ->
  exists p1 q,
    Webview.step p (Webview.Message (Webview.AnalyzeWithAI errorContext))
      = Some p1
    /\ Webview.status p1 = lit "Analyzing..." ++ Webview.spinner
    /\ Webview.step p1 (Webview.Timeout i) = Some q
    /\ Webview.status q = []
    /\ Webview.btnDisabled q = true
    /\ Webview.analyzing q = Webview.analyzing p ++ [errorContext].
Proof.
  intros Hini Hi.
  destruct p as [ini att gen st res dis txt onc tms ld an lg].
  simpl in *. subst ini. simpl.
  eexists. eexists. split; [reflexivity|]. simpl.
  split; [reflexivity|]. rewrite Hi. split; [reflexivity|].
  simpl. repeat split.
Qed.

Lemma status_cleared_during_analysis_witness :
  exists p q,
    Webview.ready = Some p
    /\ Webview.run p
         [Webview.Message (Webview.AnalyzeWithAI Host.main_errorContext);
          Webview.Timeout 0] = Some q
    /\ Webview.status q = [] /\ Webview.btnDisabled q = true.
Proof.
  destruct Webview.ready as [p|] eqn:Hp; [|discriminate Hp].
  destruct (status_cleared_during_analysis p 0%nat 3000%N
              Host.main_errorContext)
    as [p1 [q [H1 [_ [H2 [H3 [H4 _]]]]]]].
  - vm_compute in Hp. injection Hp as <-. reflexivity.
  - vm_compute in Hp. injection Hp as <-. reflexivity.
  - exists p, q. split; [reflexivity|]. split; [|auto].
    cbn [Webview.run]. rewrite H1, H2. reflexivity.
Defined.

(** ** A click, from the page to the provider and back *)

Lemma skipn_length_app {A} (l r : list A) : skipn (length l) (l ++ r) = r.
Proof. induction l; simpl; auto. Qed.

Section RoundTrips.
Context {path : PathModule}.

Lemma analyze_stale_emits_nothing env s editor :
  activeTextEditor env = Some editor ->
  Exists (fun d => severity d = Error
                   /\ ~ Host.startsInDocument (document editor) d)
    (getDiagnostics env (uri (document editor))) ->
  Host.emitted (Host.analyze env) s = [].
Proof.
  intros Hed Hex. rewrite analyze_unfold. unfold Host.emitted.
  rewrite analyzeCurrentFile_cases, Hed.
  destruct (Host._view s); [|reflexivity]. simpl.
  assert (Hbad : Exists (fun d => ~ Host.startsInDocument (document editor) d)
            (filter Host.isError
               (getDiagnostics env (uri (document editor))))).
  { apply Exists_filter. rewrite Exists_exists in *.
    destruct Hex as [d [Hin [Hs Hn]]]. exists d.
    split; [exact Hin|]. split; [apply isError_severity, Hs|exact Hn]. }
  destruct (filter Host.isError _) as [|d errors] eqn:Hf;
    [inversion Hbad|].
  apply (forEach_inl_iff (document editor) (d :: errors) 0%N
           (lit "File: " ++ basename (fileName (document editor))
              ++ LF ++ LF)) in Hbad.
  destruct Hbad as [e He]. unfold Host.buildErrorContext.
  rewrite He. reflexivity.
Qed.

Lemma click_sends_command p :
  Webview.btnDisabled p = false ->
  Webview.btnOnclick p = Webview.OnAnalyzeErrors ->
  forall env s,
    Channel.clickRoundTrip env s p
    = Some (Channel.deliver (Host.emitted (Host.analyze env) s)
              (Webview.analyzeErrors p)).
Proof.
  intros Hdis Honc env s. unfold Channel.clickRoundTrip. simpl.
  rewrite Hdis. unfold Webview.onclick. rewrite Honc. simpl.
  rewrite skipn_length_app. reflexivity.
Qed.

(** X16: A click on the enabled "Analyze Errors" button sends one
    [analyzeErrors] command, and what the page shows once the provider has
    answered depends on the editor: "No active file found..." without an
    active editor, "No errors found..." when the document has no
    diagnostic of severity [Error], and nothing new at all when such a
    diagnostic starts past the end of the document: the provider throws,
    and the result the page showed before stays. *)
Theorem click_shows_host_message p s w env :
  Webview.btnDisabled p = false ->
  Webview.btnOnclick p = Webview.OnAnalyzeErrors ->
  Host._view s = Some w ->
  exists p',
    Channel.clickRoundTrip env s p = Some p'
    /\ (activeTextEditor env = None ->
        Webview.result p' = Host.noActiveFile
        /\ Webview.log p'
           = Webview.log p ++ [Webview.PostToHost (lit "analyzeErrors")]
        /\ Webview.btnDisabled p' = false)
    /\ (forall editor,
          activeTextEditor env = Some editor ->
          Forall (fun d => severity d <> Error)
            (getDiagnostics env (uri (document editor))) ->
          Webview.result p' = Host.noErrorsFound
          /\ Webview.log p'
             = Webview.log p ++ [Webview.PostToHost (lit "analyzeErrors")]
          /\ Webview.btnDisabled p' = false)
    /\ (forall editor,
          activeTextEditor env = Some editor ->
          Exists (fun d => severity d = Error
                           /\ ~ Host.startsInDocument (document editor) d)
            (getDiagnostics env (uri (document editor))) ->
          Webview.result p' = Webview.result p
          /\ Webview.status p' = Webview.status p
          /\ Webview.log p'
             = Webview.log p ++ [Webview.PostToHost (lit "analyzeErrors")]
          /\ Webview.btnDisabled p' = false).
Proof.
  intros Hdis Honc Hv. eexists. split; [apply click_sends_command; auto|].
  split; [|split].
  - intros Hed. rewrite analyze_unfold. unfold Host.emitted.
    rewrite analyzeCurrentFile_cases, Hv, Hed. simpl. auto.
  - intros editor Hed Hnone. apply filter_isError_nil in Hnone.
    rewrite analyze_unfold. unfold Host.emitted.
    rewrite analyzeCurrentFile_cases, Hv, Hed. simpl. rewrite Hnone.
    simpl. auto.
  - intros editor Hed Hex.
    rewrite (analyze_stale_emits_nothing env s editor Hed Hex). simpl.
    auto.
Qed.

Lemma enabled_button_ready p :
  Webview.reachable p ->
  Webview.btnDisabled p = false ->
  Webview.btnOnclick p = Webview.OnAnalyzeErrors ->
  Webview.isInitialized p = true.
Proof.
  intros Hp Hdis Honc.
  destruct (reachable_consistent p Hp)
    as [[Hsingle _ Hbusy _ _ _] [_ Coffer _ _ _ _ _]].
  destruct (Webview.isInitialized p) eqn:Hini; [reflexivity|].
  assert (Hu : Webview.underway p = 0%nat \/ Webview.underway p = 1%nat)
    by lia.
  destruct Hu as [Hu|Hu].
  - rewrite (Coffer eq_refl Hu) in Honc. discriminate.
  - destruct (Hbusy Hu) as [_ [Hd _]]. congruence.
Qed.

(** X17: In a run of the page, a click on the enabled "Analyze Errors"
    button, with an active editor whose document has diagnostics of
    severity [Error] that all start inside the document, ends with the
    generator called once on the prompt around the provider's text block:
    the page never answers "Please wait for model to initialize..." to
    its own click, since the button is only enabled on a loaded model. *)
Theorem click_starts_analysis p s w env editor :
  Webview.reachable p ->
  Webview.btnDisabled p = false ->
  Webview.btnOnclick p = Webview.OnAnalyzeErrors ->
  Host._view s = Some w ->
  activeTextEditor env = Some editor ->
  let errors :=
    filter Host.isError (getDiagnostics env (uri (document editor))) in
  errors <> [] ->
  Forall (Host.startsInDocument (document editor)) errors ->
  exists errorContext p',
    Host.buildErrorContext (document editor) errors = inr errorContext
    /\ Channel.clickRoundTrip env s p = Some p'
    /\ Webview.log p'
       = Webview.log p
           ++ [Webview.PostToHost (lit "analyzeErrors");
               Webview.CallGenerator (Webview.promptFor errorContext)]
    /\ Webview.result p' = lit "Processing..."
    /\ Webview.status p' = lit "Analyzing..." ++ Webview.spinner
    /\ Webview.btnDisabled p' = true
    /\ Webview.analyzing p' = Webview.analyzing p ++ [errorContext].
Proof.
  intros Hp Hdis Honc Hv Hed errors Hne Hin.
  pose proof (enabled_button_ready p Hp Hdis Honc) as Hini.
  apply buildErrorContext_defined in Hin. destruct Hin as [ctx Hctx].
  exists ctx. eexists. split; [exact Hctx|].
  split; [apply click_sends_command; auto|].
  rewrite analyze_unfold. unfold Host.emitted.
  rewrite analyzeCurrentFile_cases, Hv, Hed. simpl. fold errors.
  destruct errors as [|d rest]; [congruence|]. rewrite Hctx. simpl.
  rewrite Hini. simpl. rewrite <- app_assoc. repeat split.
Qed.

End RoundTrips.

Lemma click_shows_host_message_witness :
  exists p p',
    Webview.ready = Some p
    /\ Channel.clickRoundTrip Host.noEditor_env
         (Host.ext (Host.resolved (lit "ext") 4)) p = Some p'
    /\ Webview.result p' = Host.noActiveFile.
Proof.
  destruct Webview.ready as [p|] eqn:Hp; [|discriminate Hp].
  destruct (click_shows_host_message p
              (Host.ext (Host.resolved (lit "ext") 4)) 4%nat
              Host.noEditor_env) as [p' [H1 [H2 _]]];
    try (vm_compute in Hp; injection Hp as <-; reflexivity).
  exists p, p'. split; [reflexivity|]. split; [exact H1|].
  apply H2. reflexivity.
Defined.

Lemma click_starts_analysis_witness :
  exists p p',
    Webview.ready = Some p
    /\ Channel.clickRoundTrip Host.main_env
         (Host.ext (Host.resolved (lit "ext") 4)) p = Some p'
    /\ Webview.analyzing p' = [Host.main_errorContext].
Proof.
  destruct Webview.ready as [p|] eqn:Hp; [|discriminate Hp].
  assert (Hr : Webview.reachable p)
    by (eapply Webview.reach_step; [apply Webview.reach_boot|exact Hp]).
  destruct (click_starts_analysis p
              (Host.ext (Host.resolved (lit "ext") 4)) 4%nat
              Host.main_env {| document := Host.main_ts |} Hr)
    as [ctx [p' [Hctx [H1 [_ [_ [_ [_ H2]]]]]]]];
    try (vm_compute in Hp; injection Hp as <-; reflexivity).
  - discriminate.
  - repeat constructor.
  - exists p, p'. split; [reflexivity|]. split; [exact H1|].
    rewrite H2. vm_compute in Hctx. injection Hctx as <-.
    vm_compute in Hp. injection Hp as <-. reflexivity.
Defined.
